(** * mpf: Pololu Maestro servo platform and the Switch device

    A shallow embedding of
      - [mpf/platforms/pololu_maestro.py] (class [HardwarePlatform]) and
      - [mpf/devices/switch.py]           (class [Switch]),
    with the properties of the frame encoder, the position clamp, the
    duplicate switch number check and the activation event registration.

    Python integers are unbounded, so they are [Z]; [&] and [>>] are
    [Z.land] and [Z.shiftr], which agree with Python on negative numbers
    (two's complement, arithmetic shift).  Methods that mutate objects or
    raise are functions in a state-and-exception monad: an exception keeps
    the mutations made before it, as in Python. *)

From Stdlib Require Import Ascii String ZArith Lia QArith.
From stdpp Require Import gmap strings list.

(** ** Python results: exceptions and stateful methods *)

Module Py.

Inductive exn : Type :=
| ValueError
| NameError
| AttributeError
| AssertionError
| SerialException
| TypeError
| OverflowError.

Inductive result (A : Type) : Type :=
| Ok (a : A)
| Raise (e : exn).
Arguments Ok {A} a.
Arguments Raise {A} e.

(** A method over a mutable world [St]: the result and the world after. *)
Definition M (St A : Type) : Type := St -> result A * St.

Definition ret {St A} (a : A) : M St A := fun s => (Ok a, s).

Definition raise {St A} (e : exn) : M St A := fun s => (Raise e, s).

Definition bind {St A B} (m : M St A) (k : A -> M St B) : M St B :=
  fun s =>
    match m s with
    | (Ok a, s') => k a s'
    | (Raise e, s') => (Raise e, s')
    end.

Definition lift {St A} (r : result A) : M St A := fun s => (r, s).

Definition get {St} : M St St := fun s => (Ok s, s).

Definition modify {St} (f : St -> St) : M St unit := fun s => (Ok tt, f s).

(** [for x in l: body(x)] *)
Fixpoint for_each {St A} (l : list A) (body : A -> M St unit) : M St unit :=
  match l with
  | [] => ret tt
  | x :: rest => bind (body x) (fun _ => for_each rest body)
  end.

End Py.

Import Py.

Notation "x <- c ;; k" := (bind c (fun x => k))
  (at level 20, c at level 99, k at level 200, only parsing).

(** ** mpf/platforms/pololu_maestro.py *)

Module Maestro.

Local Open Scope Z_scope.

(** A Python [str] built with [chr] is a sequence of code points. *)
Definition pystr : Type := list Z.

(** [chr(i)]: [OverflowError] when [i] does not fit a C int,
    [ValueError] when it does but lies outside [range(0x110000)]. *)
Definition chr (i : Z) : result pystr :=
  if (i <? - 0x80000000) || (0x7fffffff <? i) then Raise OverflowError
  else if (0 <=? i) && (i <? 0x110000) then Ok [i]
  else Raise ValueError.

(** What a caller hands to [serial.write]: text or bytes. *)
Inductive pydata : Type :=
| PyStr (s : pystr)
| PyBytes (b : list Z).

(** The [serial.Serial] object: whether the port is open, and the byte
    strings [write] has accepted so far, oldest first. *)
Record Serial : Type := mkSerial {
  is_open : bool;
  written : list (list Z)
}.

(** [self.config]: the [pololu_maestro] section. *)
Record Config : Type := mkConfig {
  servo_min : Z;
  servo_max : Z
}.

(** The platform section [get_platform_sections] returns, of which the
    class reads [config['port']]. *)
Record PlatformSection : Type := mkPlatformSection {
  port : string
}.

Record HardwarePlatform : Type := mkPlatform {
  config : Config;
  platform : option PlatformSection;
  cmd_header : pystr;
  serial : option Serial
}.

(** What [initialize] calls outside the class.  Each call may raise;
    [validate_config] gets the config dictionary and may change it in
    place; [serial.Serial(port)] opens the port or raises
    [SerialException]. *)
Record Machine : Type := mkMachine {
  super_initialize : result unit;
  validate_config : Config -> result unit * Config;
  get_platform_sections : result PlatformSection;
  port_opens : string -> bool
}.

(** [serial.Serial(port)] *)
Definition serial_Serial (machine : Machine) (port : string) : result Serial :=
  if port_opens machine port
  then Ok {| is_open := true; written := [] |}
  else Raise SerialException.

(** [__init__]: [platform = None], [cmd_header = chr(0xaa) + chr(0xc)],
    [serial = None]. *)
Definition __init__ (machine_config : Config) : HardwarePlatform :=
  {| config := machine_config;
     platform := None;
     cmd_header := [0xaa] ++ [0xc];
     serial := None |}.

Definition set_config (cfg : Config) (self : HardwarePlatform)
  : HardwarePlatform :=
  {| config := cfg; platform := platform self;
     cmd_header := cmd_header self; serial := serial self |}.

Definition set_platform (p : PlatformSection) (self : HardwarePlatform)
  : HardwarePlatform :=
  {| config := config self; platform := Some p;
     cmd_header := cmd_header self; serial := serial self |}.

Definition set_serial (s : Serial) (self : HardwarePlatform)
  : HardwarePlatform :=
  {| config := config self; platform := platform self;
     cmd_header := cmd_header self; serial := Some s |}.

Definition initialize (machine : Machine) : M HardwarePlatform unit :=
  _ <- lift (super_initialize machine) ;;
  _ <- (fun self =>
          let (r, cfg) := validate_config machine (config self) in
          (r, set_config cfg self)) ;;
  p <- lift (get_platform_sections machine) ;;
  _ <- modify (set_platform p) ;;
  s <- lift (serial_Serial machine (port p)) ;;
  modify (set_serial s).

(** [self.serial.close()] *)
Definition stop : M HardwarePlatform unit :=
  fun self =>
    match serial self with
    | None => (Raise AttributeError, self)
    | Some s =>
        (Ok tt, set_serial {| is_open := false; written := written s |} self)
    end.

(** [self.serial.write(data)]: [None] has no [write]; a closed port
    refuses; an open port takes bytes and raises [TypeError] on a [str]
    ("unicode strings are not supported, please encode to bytes"). *)
Definition serial_write (data : pydata) : M HardwarePlatform unit :=
  fun self =>
    match serial self with
    | None => (Raise AttributeError, self)
    | Some s =>
        if is_open s then
          match data with
          | PyBytes b =>
              (Ok tt,
               set_serial {| is_open := true; written := written s ++ [b] |}
                 self)
          | PyStr _ => (Raise TypeError, self)
          end
        else (Raise SerialException, self)
    end.

(** The value of [position] after the two clamps (lines 57 to 65). *)
Definition clamped (cfg : Config) (position : Z) : Z :=
  let position :=
    if (servo_min cfg >? 0) && (position <? servo_min cfg)
    then servo_min cfg else position in
  let position :=
    if (servo_max cfg >? 0) && (position >? servo_max cfg)
    then servo_max cfg else position in
  position.

Definition servo_go_to_position (number position : Z)
  : M HardwarePlatform unit :=
  self <- get ;;
  let position := clamped (config self) position in
  let lsb := Z.land position 0x7f in
  let msb := Z.land (Z.shiftr position 7) 0x7f in
  c_cmd <- lift (chr 0x04) ;;
  c_num <- lift (chr number) ;;
  c_lsb <- lift (chr lsb) ;;
  c_msb <- lift (chr msb) ;;
  let cmd := cmd_header self ++ c_cmd ++ c_num ++ c_lsb ++ c_msb in
  serial_write (PyStr cmd).

Definition set_speed (number speed : Z) : M HardwarePlatform unit :=
  self <- get ;;
  let lsb := Z.land speed 0x7f in
  let msb := Z.land (Z.shiftr speed 7) 0x7f in
  c_cmd <- lift (chr 0x07) ;;
  c_num <- lift (chr number) ;;
  c_lsb <- lift (chr lsb) ;;
  c_msb <- lift (chr msb) ;;
  let cmd := cmd_header self ++ c_cmd ++ c_num ++ c_lsb ++ c_msb in
  serial_write (PyStr cmd).

(** Name resolution inside a method body: the local variables, then the
    module's globals (and the builtins, which have no [chan]).  The module
    binds only [logging], [ServoPlatform], [serial] and [HardwarePlatform]
    at top level, none of them an integer variable a method reads. *)
Definition module_globals : gmap string Z := ∅.

Definition load_name (locals : gmap string Z) (x : string) : result Z :=
  match locals !! x with
  | Some v => Ok v
  | None =>
      match module_globals !! x with
      | Some v => Ok v
      | None => Raise NameError
      end
  end.

(** [set_acceleration]: line 110 reads [chan], the parameters are [number]
    and [accel]. *)
Definition set_acceleration (number accel : Z) : M HardwarePlatform unit :=
  self <- get ;;
  let locals : gmap string Z :=
    <["number" := number]> (<["accel" := accel]> ∅) in
  let lsb := Z.land accel 0x7f in
  let locals := <["lsb" := lsb]> locals in
  let msb := Z.land (Z.shiftr accel 7) 0x7f in
  let locals := <["msb" := msb]> locals in
  c_cmd <- lift (chr 0x09) ;;
  chan <- lift (load_name locals "chan") ;;
  c_num <- lift (chr chan) ;;
  c_lsb <- lift (chr lsb) ;;
  c_msb <- lift (chr msb) ;;
  let cmd := cmd_header self ++ c_cmd ++ c_num ++ c_lsb ++ c_msb in
  serial_write (PyStr cmd).

(** *** Vocabulary for the properties *)

(** The two 7-bit bytes of a value, low one first. *)
Definition value_bytes (value : Z) : pystr :=
  [Z.land value 0x7f; Z.land (Z.shiftr value 7) 0x7f].

(** The text a command of [self] builds at its last line but one: the
    header of [self], the opcode, the channel and the value bytes. *)
Definition command (self : HardwarePlatform) (opcode number value : Z)
  : pystr :=
  cmd_header self ++ [opcode] ++ [number] ++ value_bytes value.



(** A machine on which every outside call of [initialize] succeeds and
    leaves the config as it is. *)
Definition working_machine : Machine :=
  {| super_initialize := Ok tt;
     validate_config := fun cfg => (Ok tt, cfg);
     get_platform_sections := Ok {| port := "/dev/ttyACM0" |};
     port_opens := fun _ => true |}.

(** The platform [initialize] leaves on [working_machine]. *)
Definition ready_platform (cfg : Config) : HardwarePlatform :=
  {| config := cfg;
     platform := Some {| port := "/dev/ttyACM0" |};
     cmd_header := [0xaa; 0xc];
     serial := Some {| is_open := true; written := [] |} |}.

End Maestro.

(** ** mpf/devices/switch.py *)

Module Switch.

Local Open Scope Z_scope.

(** *** The [str] methods the class uses

    Text is a [string] of ASCII characters. *)

(** [c.upper()] on one character; only [a]..[z] change. *)
Definition upper_char (c : ascii) : ascii :=
  let n := nat_of_ascii c in
  if ((97 <=? n) && (n <=? 122))%nat then ascii_of_nat (n - 32) else c.

(** [s.upper()] *)
Fixpoint upper (s : string) : string :=
  match s with
  | EmptyString => EmptyString
  | String c rest => String (upper_char c) (upper rest)
  end.

(** [c in s] for a one-character [c]. *)
Fixpoint contains (c : ascii) (s : string) : bool :=
  match s with
  | EmptyString => false
  | String d rest => if Ascii.eqb d c then true else contains c rest
  end.

(** [s.split(sep)] for a one-character [sep]: one more piece than there
    are separators, empty pieces included. *)
Fixpoint split (sep : ascii) (s : string) : list string :=
  match s with
  | EmptyString => [EmptyString]
  | String c rest =>
      if Ascii.eqb c sep then EmptyString :: split sep rest
      else match split sep rest with
           | [] => [String c EmptyString]
           | piece :: pieces => String c piece :: pieces
           end
  end.

(** [s.replace(old, new)] for a one-character [old]: every occurrence. *)
Fixpoint replace (old : ascii) (new s : string) : string :=
  match s with
  | EmptyString => EmptyString
  | String c rest =>
      if Ascii.eqb c old then new +:+ replace old new rest
      else String c (replace old new rest)
  end.

(** How many times [c] occurs in [s]. *)
Fixpoint count_char (c : ascii) (s : string) : nat :=
  match s with
  | EmptyString => 0%nat
  | String d rest =>
      if Ascii.eqb d c then S (count_char c rest) else count_char c rest
  end.

(** *** Collaborators outside the class *)

(** [mpf.core.platform.SwitchConfig] *)
Record SwitchConfig : Type := mkSwitchConfig {
  sc_invert : Z;
  sc_debounce : string
}.

(** The platform's switch object, of which the class reads [number]. *)
Record HwSwitch (Number : Type) : Type := mkHwSwitch {
  number : Number
}.
Arguments mkHwSwitch {Number} number.
Arguments number {Number} h.

(** The platform objects and helpers the class calls but does not define:
    [machine.get_platform_sections], the platform's [configure_switch],
    [Util.string_to_ms] and [Util.string_to_lowercase_list]. *)
Class Framework : Type := {
  Platform : Type;
  Platform_eq_dec :: EqDecision Platform;
  Platform_countable :: Countable Platform;
  Number : Type;
  Number_eq_dec :: EqDecision Number;
  Number_countable :: Countable Number;
  Settings : Type;
  get_platform_sections : string -> option string -> Platform;
  configure_switch :
    Platform -> string -> SwitchConfig -> Settings -> HwSwitch Number;
  string_to_ms : string -> result Z;
  string_to_lowercase_list : string -> list string
}.

Section WithFramework.

Context `{F : Framework}.

(** [self.config]: the validated [switches] entry of this switch. *)
Record DeviceConfig : Type := mkDeviceConfig {
  cfg_platform : option string;
  cfg_type : string;
  cfg_ignore_window_ms : Z;
  cfg_debounce : string;
  cfg_number : string;
  cfg_platform_settings : Settings;
  cfg_events_when_activated : string;
  cfg_events_when_deactivated : string
}.

(** The [SystemWideDevice] part of the object, built by
    [super().__init__(machine, name)] and filled by the device framework:
    the name, the validated config and the tags. *)
Record Device : Type := mkDevice {
  name : string;
  config : DeviceConfig;
  tags : list string
}.

Record Switch : Type := mkSwitch {
  device : Device;
  hw_switch : option (HwSwitch Number);
  platform : option Platform;
  state : Z;
  hw_state : Z;
  invert : Z;
  recycle_secs : Q;
  recycle_clear_time : Z;
  recycle_jitter_count : Z
}.

(** [machine.config['mpf']] *)
Record MpfConfig : Type := mkMpfConfig {
  auto_create_switch_events : bool;
  switch_event_active : string;
  switch_event_inactive : string;
  switch_tag_event : string
}.

(** The callbacks the class hands out. *)
Inductive Callback : Type :=
| PostEvent (event : string)      (* partial(machine.events.post, event=event) *)
| CheckDuplicateSwitchNumbers.    (* cls._check_duplicate_switch_numbers *)

(** One call of [switch_controller.add_switch_handler]. *)
Record SwitchHandler : Type := mkSwitchHandler {
  h_switch_name : string;
  h_state : Z;
  h_callback : Callback;
  h_ms : Z
}.

Record MachineController : Type := mkMachine {
  mpf : MpfConfig;
  switches : list Switch;
  registered_switches : list string;      (* switch_controller *)
  switch_handlers : list SwitchHandler;   (* switch_controller *)
  event_handlers : list (string * Callback)   (* machine.events *)
}.

(** Modelled from the spec: [switch_controller.register_switch] is not in
    the sources; it records the name so that later hardware reports for it
    are accepted. *)
Definition register_switch (name : string) : M MachineController unit :=
  modify (fun m =>
    {| mpf := mpf m;
       switches := switches m;
       registered_switches := registered_switches m ++ [name];
       switch_handlers := switch_handlers m;
       event_handlers := event_handlers m |}).

(** Modelled from the spec: [switch_controller.add_switch_handler] is not
    in the sources; per the spec it appends a registration. *)
Definition add_switch_handler (switch_name : string) (state : Z)
    (callback : Callback) (ms : Z) : M MachineController unit :=
  modify (fun m =>
    {| mpf := mpf m;
       switches := switches m;
       registered_switches := registered_switches m;
       switch_handlers :=
         switch_handlers m ++
         [{| h_switch_name := switch_name; h_state := state;
             h_callback := callback; h_ms := ms |}];
       event_handlers := event_handlers m |}).

(** Modelled from the spec: [machine.events.add_handler] is not in the
    sources; it registers a callback under an event name. *)
Definition events_add_handler (event : string) (callback : Callback)
  : M MachineController unit :=
  modify (fun m =>
    {| mpf := mpf m;
       switches := switches m;
       registered_switches := registered_switches m;
       switch_handlers := switch_handlers m;
       event_handlers := event_handlers m ++ [(event, callback)] |}).

(** *** The class *)

Definition __init__ (base : Device) : M MachineController Switch :=
  let self :=
    {| device := base;
       hw_switch := None;
       platform := None;
       state := 0;
       hw_state := 0;
       invert := 0;
       recycle_secs := 0%Q;
       recycle_clear_time := 0;
       recycle_jitter_count := 0 |} in
  _ <- register_switch (name base) ;;
  ret self.

Definition device_class_init : M MachineController unit :=
  events_add_handler "init_phase_4" CheckDuplicateSwitchNumbers.

(** The loop of [_check_duplicate_switch_numbers], with [check_set] so
    far. *)
Fixpoint check_loop (check_set : gset (option Platform * Number))
    (l : list Switch) : result unit :=
  match l with
  | [] => Ok tt
  | switch :: rest =>
      match hw_switch switch with
      | None => Raise AttributeError
      | Some hw =>
          let key := (platform switch, number hw) in
          if decide (key ∈ check_set) then Raise AssertionError
          else check_loop (check_set ∪ {[key]}) rest
      end
  end.

Definition _check_duplicate_switch_numbers (machine : MachineController)
  : result unit :=
  check_loop ∅ (switches machine).

(** A method of a switch runs on the object and its machine.  [self] is
    the object the method mutates; [switches (machine)] is what the
    duplicate check reads, no method of a single switch consults it, and
    nothing is stated about it after such a method. *)
Record World : Type := mkWorld {
  self : Switch;
  machine : MachineController
}.

Definition on_machine {A} (m : M MachineController A) : M World A :=
  fun w =>
    let (r, machine') := m (machine w) in
    (r, {| self := self w; machine := machine' |}).

Definition set_self (f : Switch -> Switch) : M World unit :=
  modify (fun w => {| self := f (self w); machine := machine w |}).

Definition set_platform (p : Platform) (s : Switch) : Switch :=
  {| device := device s; hw_switch := hw_switch s; platform := Some p;
     state := state s; hw_state := hw_state s; invert := invert s;
     recycle_secs := recycle_secs s;
     recycle_clear_time := recycle_clear_time s;
     recycle_jitter_count := recycle_jitter_count s |}.

Definition set_invert (i : Z) (s : Switch) : Switch :=
  {| device := device s; hw_switch := hw_switch s; platform := platform s;
     state := state s; hw_state := hw_state s; invert := i;
     recycle_secs := recycle_secs s;
     recycle_clear_time := recycle_clear_time s;
     recycle_jitter_count := recycle_jitter_count s |}.

Definition set_recycle_secs (q : Q) (s : Switch) : Switch :=
  {| device := device s; hw_switch := hw_switch s; platform := platform s;
     state := state s; hw_state := hw_state s; invert := invert s;
     recycle_secs := q;
     recycle_clear_time := recycle_clear_time s;
     recycle_jitter_count := recycle_jitter_count s |}.

Definition set_hw_switch (h : HwSwitch Number) (s : Switch) : Switch :=
  {| device := device s; hw_switch := Some h; platform := platform s;
     state := state s; hw_state := hw_state s; invert := invert s;
     recycle_secs := recycle_secs s;
     recycle_clear_time := recycle_clear_time s;
     recycle_jitter_count := recycle_jitter_count s |}.

Definition _create_activation_event (event_str : string) (state : Z)
  : M World unit :=
  p <- (if contains "|" event_str then
          match split "|" event_str with
          | [event; ev_time] =>
              ms <- lift (string_to_ms ev_time) ;;
              ret (event, ms)
          | _ => raise ValueError
          end
        else ret (event_str, 0)) ;;
  w <- get ;;
  on_machine
    (add_switch_handler (name (device (self w))) state
       (PostEvent (fst p)) (snd p)).

(** [recycle_secs] is [ignore_window_ms / 1000.0]; the float is kept as
    the exact quotient. *)
Definition _initialize : M World unit :=
  w <- get ;;
  let cfg := config (device (self w)) in
  let mpf_cfg := mpf (machine w) in
  let plat := get_platform_sections "switches" (cfg_platform cfg) in
  _ <- set_self (set_platform plat) ;;
  _ <- (if String.eqb (upper (cfg_type cfg)) "NC"
        then set_self (set_invert 1) else ret tt) ;;
  _ <- set_self (set_recycle_secs (Qmake (cfg_ignore_window_ms cfg) 1000)) ;;
  w' <- get ;;
  let config :=
    {| sc_invert := invert (self w'); sc_debounce := cfg_debounce cfg |} in
  _ <- set_self
         (set_hw_switch
            (configure_switch plat (cfg_number cfg) config
               (cfg_platform_settings cfg))) ;;
  _ <- (if auto_create_switch_events mpf_cfg then
          _ <- _create_activation_event
                 (replace "%" (name (device (self w)))
                    (switch_event_active mpf_cfg)) 1 ;;
          _create_activation_event
            (replace "%" (name (device (self w)))
               (switch_event_inactive mpf_cfg)) 0
        else ret tt) ;;
  _ <- for_each (tags (device (self w))) (fun tag =>
         _ <- _create_activation_event
                (replace "%" tag (switch_tag_event mpf_cfg)) 1 ;;
         _ <- _create_activation_event
                (replace "%" tag (switch_tag_event mpf_cfg) +:+ "_active")
                1 ;;
         _create_activation_event
           (replace "%" tag (switch_tag_event mpf_cfg) +:+ "_inactive") 0) ;;
  _ <- for_each
         (string_to_lowercase_list (cfg_events_when_activated cfg))
         (fun event => _create_activation_event event 1) ;;
  for_each
    (string_to_lowercase_list (cfg_events_when_deactivated cfg))
    (fun event => _create_activation_event event 0).

(** *** Vocabulary for the properties *)

(** The machine with one more switch handler registered. *)
Definition add_handler_to (m : MachineController) (h : SwitchHandler)
  : MachineController :=
  {| mpf := mpf m;
     switches := switches m;
     registered_switches := registered_switches m;
     switch_handlers := switch_handlers m ++ [h];
     event_handlers := event_handlers m |}.

Definition with_handler (w : World) (h : SwitchHandler) : World :=
  {| self := self w; machine := add_handler_to (machine w) h |}.

(** The handler [_create_activation_event] registers for [event], [ms]. *)
Definition posting (w : World) (state : Z) (event : string) (ms : Z)
  : SwitchHandler :=
  {| h_switch_name := name (device (self w));
     h_state := state;
     h_callback := PostEvent event;
     h_ms := ms |}.

(** [w'] is [w] with the same switch object and some more handlers. *)
Definition extends (w w' : World) : Prop :=
  self w' = self w
  /\ exists hs,
       switch_handlers (machine w') = switch_handlers (machine w) ++ hs.

(** A method that only registers switch handlers. *)
Definition registers_only {A} (m : M World A) : Prop :=
  forall w, extends w (snd (m w)).

(** The switch after the first half of [_initialize]. *)
Definition configured_self (w : World) : Switch :=
  let cfg := config (device (self w)) in
  let plat := get_platform_sections "switches" (cfg_platform cfg) in
  let s1 := set_platform plat (self w) in
  let s2 := if String.eqb (upper (cfg_type cfg)) "NC"
            then set_invert 1 s1 else s1 in
  let s3 := set_recycle_secs (Qmake (cfg_ignore_window_ms cfg) 1000) s2 in
  set_hw_switch
    (configure_switch plat (cfg_number cfg)
       {| sc_invert := invert s3; sc_debounce := cfg_debounce cfg |}
       (cfg_platform_settings cfg))
    s3.

(** The three registrations of one tag. *)
Definition tag_events (template tag : string) : M World unit :=
  _ <- _create_activation_event (replace "%" tag template) 1 ;;
  _ <- _create_activation_event (replace "%" tag template +:+ "_active") 1 ;;
  _create_activation_event (replace "%" tag template +:+ "_inactive") 0.

(** The second half of [_initialize], for the switch and machine
    configuration read from [w]. *)
Definition register_events (w : World) : M World unit :=
  let cfg := config (device (self w)) in
  let mpf_cfg := mpf (machine w) in
  _ <- (if auto_create_switch_events mpf_cfg then
          _ <- _create_activation_event
                 (replace "%" (name (device (self w)))
                    (switch_event_active mpf_cfg)) 1 ;;
          _create_activation_event
            (replace "%" (name (device (self w)))
               (switch_event_inactive mpf_cfg)) 0
        else ret tt) ;;
  _ <- for_each (tags (device (self w)))
         (tag_events (switch_tag_event mpf_cfg)) ;;
  _ <- for_each
         (string_to_lowercase_list (cfg_events_when_activated cfg))
         (fun event => _create_activation_event event 1) ;;
  for_each
    (string_to_lowercase_list (cfg_events_when_deactivated cfg))
    (fun event => _create_activation_event event 0).

(** The key the check computes for a switch whose hardware switch is
    set. *)
Definition switch_key (s : Switch) : option (option Platform * Number) :=
  match hw_switch s with
  | Some hw => Some (platform s, number hw)
  | None => None
  end.

Definition keys (l : list Switch) : list (option Platform * Number) :=
  omap switch_key l.

Definition configured (s : Switch) : Prop := is_Some (hw_switch s).

(** [w'] is [w] with more switch handlers, all of them for the switch
    named [n]; the switch object, the machine's configuration, its
    registered switch names and its event handlers are the same. *)
Definition adds_handlers_for (n : string) (w w' : World) : Prop :=
  self w' = self w
  /\ mpf (machine w') = mpf (machine w)
  /\ registered_switches (machine w') = registered_switches (machine w)
  /\ event_handlers (machine w') = event_handlers (machine w)
  /\ exists hs,
       switch_handlers (machine w') = switch_handlers (machine w) ++ hs
       /\ Forall (fun h => h_switch_name h = n) hs.

(** A method that only registers handlers for the switch it runs on. *)
Definition registers_for_self {A} (m : M World A) : Prop :=
  forall w, adds_handlers_for (name (device (self w))) w (snd (m w)).

(** How many handlers a completed [_initialize] registers for [w]. *)
Definition handlers_to_register (w : World) : nat :=
  ((if auto_create_switch_events (mpf (machine w)) then 2 else 0)
   + 3 * length (tags (device (self w)))
   + length (string_to_lowercase_list
               (cfg_events_when_activated (config (device (self w)))))
   + length (string_to_lowercase_list
               (cfg_events_when_deactivated (config (device (self w))))))%nat.

(** *** The startup checkpoint *)






End WithFramework.

(** *** A concrete framework, to run the class on examples *)

Definition lower_char (c : ascii) : ascii :=
  let n := nat_of_ascii c in
  if ((65 <=? n) && (n <=? 90))%nat then ascii_of_nat (n + 32) else c.

Fixpoint lower (s : string) : string :=
  match s with
  | EmptyString => EmptyString
  | String c rest => String (lower_char c) (lower rest)
  end.

Fixpoint decimal_digits (acc : Z) (s : string) : result Z :=
  match s with
  | EmptyString => Ok acc
  | String c rest =>
      let n := nat_of_ascii c in
      if ((48 <=? n) && (n <=? 57))%nat
      then decimal_digits (10 * acc + (Z.of_nat n - 48)) rest
      else Raise ValueError
  end.

(** Modelled from the spec: [Util.string_to_ms] is not in the sources; the
    [|ms] suffix of an event name is a delay in milliseconds, read here as
    a non-empty run of decimal digits. *)
Definition decimal_ms (s : string) : result Z :=
  match s with
  | EmptyString => Raise ValueError
  | _ => decimal_digits 0 s
  end.

(** Modelled from the spec: [Util.string_to_lowercase_list] is not in the
    sources; the configuration gives a list of event names, read here as
    lower-cased names separated by commas. *)
Definition comma_list (s : string) : list string :=
  match s with
  | EmptyString => []
  | _ => split "," (lower s)
  end.

(** Modelled from the spec: the platform objects are not in the sources; a
    platform is resolved by device type and optional named override, and
    the switch it configures carries the configured number. *)
Definition reference_framework : Framework :=
  {| Platform := string;
     Number := string;
     Settings := unit;
     get_platform_sections := fun section overwrite =>
       match overwrite with
       | Some p => p
       | None => section
       end;
     configure_switch := fun _ number _ _ => mkHwSwitch number;
     string_to_ms := decimal_ms;
     string_to_lowercase_list := comma_list |}.

Definition example_mpf : MpfConfig :=
  {| auto_create_switch_events := true;
     switch_event_active := "%_active";
     switch_event_inactive := "%_inactive";
     switch_tag_event := "sw_%" |}.

Definition example_config (type : string) (activated : string)
  : DeviceConfig (F := reference_framework) :=
  mkDeviceConfig (F := reference_framework)
    None        (* platform *)
    type        (* type *)
    0           (* ignore_window_ms *)
    "auto"      (* debounce *)
    "7"         (* number *)
    tt          (* platform_settings *)
    activated   (* events_when_activated *)
    "".         (* events_when_deactivated *)

Definition example_device (type : string) (tags : list string)
  : Device (F := reference_framework) :=
  mkDevice (F := reference_framework) "s_start" (example_config type "") tags.

Definition example_machine : MachineController (F := reference_framework) :=
  mkMachine (F := reference_framework) example_mpf [] [] [] [].

(** The world after constructing the switch [s_start] on
    [example_machine]. *)
Definition example_world (type : string) (tags : list string)
  : World (F := reference_framework) :=
  mkWorld (F := reference_framework)
    (mkSwitch (F := reference_framework)
       (example_device type tags) None None 0 0 0 0%Q 0 0)
    (mkMachine (F := reference_framework) example_mpf [] ["s_start"] [] []).

(** A switch as [configure_switch] leaves it, on [platform] with hardware
    number [number]. *)
Definition example_switch (platform number : string)
  : Switch (F := reference_framework) :=
  mkSwitch (F := reference_framework)
    (example_device "NO" [])
    (Some (mkHwSwitch number))   (* hw_switch *)
    (Some platform)              (* platform *)
    0 0 0 0%Q 0 0.

Definition example_machine_with (l : list (Switch (F := reference_framework)))
  : MachineController (F := reference_framework) :=
  mkMachine (F := reference_framework) example_mpf l [] [] [].

(** The world after constructing a switch [s_start] whose configuration
    lists [activated] under events_when_activated. *)
Definition example_world_with_events (activated : string)
  : World (F := reference_framework) :=
  mkWorld (F := reference_framework)
    (mkSwitch (F := reference_framework)
       (mkDevice (F := reference_framework) "s_start"
          (example_config "NO" activated) [])
       None None 0 0 0 0%Q 0 0)
    (mkMachine (F := reference_framework) example_mpf [] ["s_start"] [] []).

End Switch.

(** ** mpf/core/light_script_player.py *)

Module LightScriptPlayer.

Section WithValues.

(** The values of a settings entry (script names, light lists, ...). *)
Context {V : Type}.

(** The keyword arguments of one call of
    [show_controller.create_show_from_script]. *)
Record ShowCall : Type := mkShowCall {
  script : V;
  lights : V;
  leds : V;
  light_tags : V;
  led_tags : V;
  key : V
}.

(** What comes out of [play] when it does not return: the [KeyError] of a
    subscript, or whatever [super().play] raised. *)
Inductive raised : Type :=
| KeyError (key : string)
| FromSuper (e : exn).

(** [s[k]], then the rest of the call. *)
Definition subscript {A} (s : gmap string V) (k : string)
    (rest : V -> raised + A) : raised + A :=
  match s !! k with
  | Some v => rest v
  | None => inl (KeyError k)
  end.

(** The loop body up to the call: [name = s['script']], then the keyword
    arguments in the order they are written. *)
Definition show_call (s : gmap string V) : raised + ShowCall :=
  subscript s "script" (fun name =>
  subscript s "script" (fun script =>
  subscript s "lights" (fun lights =>
  subscript s "leds" (fun leds =>
  subscript s "light_tags" (fun light_tags =>
  subscript s "led_tags" (fun led_tags =>
  subscript s "key" (fun key =>
  inr {| script := script; lights := lights; leds := leds;
         light_tags := light_tags; led_tags := led_tags;
         key := key |}))))))).

(** [ConfigPlayer.play], which the sources do not contain, runs first on
    the show controller's calls so far. *)
Variable super_play : list (gmap string V) -> M (list ShowCall) unit.

(** The [for] loop; the show controller is the list of the calls it has
    received, oldest first. *)
Fixpoint play_loop (settings : list (gmap string V)) (shows : list ShowCall)
  : option raised * list ShowCall :=
  match settings with
  | [] => (None, shows)
  | s :: rest =>
      match show_call s with
      | inl r => (Some r, shows)
      | inr call => play_loop rest (shows ++ [call])
      end
  end.

Definition play (settings : list (gmap string V)) (shows : list ShowCall)
  : option raised * list ShowCall :=
  match super_play settings shows with
  | (Ok _, shows') => play_loop settings shows'
  | (Raise e, shows') => (Some (FromSuper e), shows')
  end.

(** *** Vocabulary for the properties *)

(** The keys the loop body reads, in the order it reads them. *)
Definition required_keys : list string :=
  ["script"; "lights"; "leds"; "light_tags"; "led_tags"; "key"]%string.

Definition complete (s : gmap string V) : Prop :=
  Forall (fun k => is_Some (s !! k)) required_keys.

(** [k] is the first required key the entry lacks. *)
Definition first_missing (s : gmap string V) (k : string) : Prop :=
  exists before after,
    required_keys = before ++ k :: after
    /\ s !! k = None
    /\ Forall (fun k' => is_Some (s !! k')) before.

(** The call carries the entry's six values. *)
Definition built_from (s : gmap string V) (c : ShowCall) : Prop :=
  s !! "script" = Some (script c)
  /\ s !! "lights" = Some (lights c)
  /\ s !! "leds" = Some (leds c)
  /\ s !! "light_tags" = Some (light_tags c)
  /\ s !! "led_tags" = Some (led_tags c)
  /\ s !! "key" = Some (key c).

End WithValues.

(** A complete entry and one without [leds], with strings as values. *)
Definition example_entry (name : string) : gmap string string :=
  <["script" := name]> (<["lights" := "l_all"%string]>
  (<["leds" := "led_all"%string]> (<["light_tags" := "gi"%string]>
  (<["led_tags" := "rgb"%string]> (<["key" := "attract"%string]> ∅))))).

Definition example_entry_without_leds (name : string) : gmap string string :=
  delete "leds" (example_entry name).

End LightScriptPlayer.

(** * Properties *)

(** ** The Maestro frames *)

Module MaestroSpec.

Import Maestro.
Local Open Scope Z_scope.

Lemma initialize_working cfg :
  initialize working_machine (__init__ cfg) = (Ok tt, ready_platform cfg).
Proof. reflexivity. Qed.

(** What a successful [initialize] leaves of a fresh platform. *)
Lemma initialize_Ok machine cfg self :
  initialize machine (__init__ cfg) = (Ok tt, self) ->
  cmd_header self = [0xaa; 0xc]
  /\ serial self = Some {| is_open := true; written := [] |}
  /\ validate_config machine cfg = (Ok tt, config self).
Proof.
  unfold initialize, bind, lift, modify, serial_Serial.
  destruct (super_initialize machine); [| discriminate].
  cbn [config __init__].
  destruct (validate_config machine cfg) as [[[] | e] cfg'];
    [| discriminate].
  destruct (get_platform_sections machine) as [p | e]; [| discriminate].
  destruct (port_opens machine (port p)); [| discriminate].
  intros [= <-]. cbn. repeat split.
Qed.

Lemma serial_write_str_rejected self s log :
  serial self = Some {| is_open := true; written := log |} ->
  serial_write (PyStr s) self = (Raise TypeError, self).
Proof. intros H. unfold serial_write. now rewrite H. Qed.

Lemma chr_in_range i : 0 <= i < 0x110000 -> chr i = Ok [i].
Proof.
  intros [Hlo Hhi]. unfold chr.
  destruct (Z.ltb_spec i (- 0x80000000)); [lia |].
  destruct (Z.ltb_spec 0x7fffffff i); [lia |]. cbn [orb].
  apply Z.leb_le in Hlo. apply Z.ltb_lt in Hhi.
  now rewrite Hlo, Hhi.
Qed.

Lemma low7_range v : 0 <= Z.land v 0x7f <= 127.
Proof.
  change (Z.land v 0x7f) with (Z.land v (Z.ones 7)).
  rewrite Z.land_ones by lia. change (2 ^ 7) with 128.
  pose proof (Z.mod_pos_bound v 128). lia.
Qed.

Lemma chr_low7 v : chr (Z.land v 0x7f) = Ok [Z.land v 0x7f].
Proof. apply chr_in_range. pose proof (low7_range v). lia. Qed.






(** The position command builds its text and calls [write] with it. *)
Lemma servo_go_to_position_hands_over self number position :
  0 <= number < 0x110000 ->
  servo_go_to_position number position self
  = serial_write
      (PyStr (command self 0x04 number (clamped (config self) position)))
      self.
Proof.
  intros Hn. unfold servo_go_to_position, bind, get, lift.
  rewrite (chr_in_range number Hn), !chr_low7.
  reflexivity.
Qed.

Lemma set_speed_hands_over self number speed :
  0 <= number < 0x110000 ->
  set_speed number speed self
  = serial_write (PyStr (command self 0x07 number speed)) self.
Proof.
  intros Hn. unfold set_speed, bind, get, lift.
  rewrite (chr_in_range number Hn), !chr_low7.
  reflexivity.
Qed.






(** C1, as the code behaves.  On a platform built by [__init__] and
    opened by [initialize], the position command builds exactly the
    header 0xaa 0x0c, the opcode 0x04, the channel, and the low and high
    7 bits of the clamped value: six entries, the two value bytes within
    0..127, and 112 and 46 for the value 6000.  It hands this text to
    [serial.write] as a [str]; the write raises [TypeError] and nothing
    is written. *)
Theorem servo_go_to_position_frame machine cfg self number position :
  initialize machine (__init__ cfg) = (Ok tt, self) ->
  0 <= number < 0x110000 ->
  let value := clamped (config self) position in
  let low := Z.land value 0x7f in
  let high := Z.land (Z.shiftr value 7) 0x7f in
  let cmd := [0xaa; 0xc] ++ [0x04] ++ [number] ++ [low] ++ [high] in
  servo_go_to_position number position self = serial_write (PyStr cmd) self
  /\ length cmd = 6%nat
  /\ 0 <= low <= 127
  /\ 0 <= high <= 127
  /\ (value = 6000 -> low = 112 /\ high = 46)
  /\ servo_go_to_position number position self = (Raise TypeError, self)
  /\ serial self = Some {| is_open := true; written := [] |}.
Proof.
  intros Hinit Hn value low high cmd.
  destruct (initialize_Ok _ _ _ Hinit) as (Hhead & Hserial & _).
  assert (servo_go_to_position number position self
          = serial_write (PyStr cmd) self) as Hcmd.
  { rewrite (servo_go_to_position_hands_over _ _ _ Hn).
    unfold command. now rewrite Hhead. }
  split; [exact Hcmd |].
  split; [reflexivity |].
  split; [apply low7_range |].
  split; [apply low7_range |].
  split.
  { intros Hv. unfold low, high. rewrite Hv. split; reflexivity. }
  split; [| exact Hserial].
  rewrite Hcmd. now apply (serial_write_str_rejected _ _ []).
Qed.

Lemma servo_go_to_position_frame_witness :
  servo_go_to_position 3 6000 (ready_platform (mkConfig 0 0))
  = serial_write (PyStr [170; 12; 4; 3; 112; 46])
      (ready_platform (mkConfig 0 0))
  /\ servo_go_to_position 3 6000 (ready_platform (mkConfig 0 0))
     = (Raise TypeError, ready_platform (mkConfig 0 0)).
Proof.
  pose proof (servo_go_to_position_frame working_machine (mkConfig 0 0)
                (ready_platform (mkConfig 0 0)) 3 6000 eq_refl
                ltac:(lia)) as H.
  cbn zeta in H. split; [apply H | apply H].
Defined.




(** C3. [set_acceleration] never writes a frame: reading the unbound name
    [chan] raises [NameError] for every channel and value, and the
    platform is left as it was. *)
Theorem set_acceleration_raises number accel self :
  set_acceleration number accel self = (Raise NameError, self).
Proof.
  unfold set_acceleration, bind, get, lift, load_name, module_globals.
  rewrite (chr_in_range 0x09) by lia.
  rewrite !lookup_insert_ne by discriminate.
  rewrite lookup_empty. reflexivity.
Qed.



End MaestroSpec.

(** ** The Switch device *)

Module SwitchSpec.

Import Switch.
Local Open Scope Z_scope.

(** *** Facts about the [str] methods *)

Lemma split_not_nil sep s : split sep s <> [].
Proof.
  destruct s as [| c rest]; cbn; [discriminate |].
  destruct (Ascii.eqb c sep); [discriminate |].
  destruct (split sep rest); discriminate.
Qed.

Lemma split_length sep s : length (split sep s) = S (count_char sep s).
Proof.
  induction s as [| c rest IH]; cbn; [reflexivity |].
  destruct (Ascii.eqb c sep); cbn; [now rewrite IH |].
  destruct (split sep rest) eqn:E; [now destruct (split_not_nil sep rest) |].
  cbn in *. exact IH.
Qed.

Lemma contains_count c s : contains c s = true <-> (0 < count_char c s)%nat.
Proof.
  induction s as [| d rest IH]; cbn.
  - split; [discriminate | lia].
  - destruct (Ascii.eqb d c); [split; [lia | reflexivity] | exact IH].
Qed.

Lemma contains_false_count c s :
  contains c s = false <-> count_char c s = 0%nat.
Proof.
  pose proof (contains_count c s) as [H1 H2].
  destruct (contains c s) eqn:E.
  - split; [discriminate |]. intros H0. specialize (H1 eq_refl). lia.
  - split; [| reflexivity]. intros _.
    destruct (count_char c s); [reflexivity |].
    assert (false = true) by (apply H2; lia). discriminate.
Qed.

Lemma split_without sep s : contains sep s = false -> split sep s = [s].
Proof.
  induction s as [| c rest IH]; cbn; [reflexivity |].
  destruct (Ascii.eqb c sep); [discriminate |].
  intros H. now rewrite (IH H).
Qed.

Lemma split_app sep a b :
  contains sep a = false ->
  split sep (a +:+ String sep b) = a :: split sep b.
Proof.
  induction a as [| c rest IH]; simpl.
  - intros _. now rewrite Ascii.eqb_refl.
  - destruct (Ascii.eqb c sep); [discriminate |].
    intros H. now rewrite (IH H).
Qed.

Lemma contains_app c a b :
  contains c (a +:+ b) = contains c a || contains c b.
Proof.
  induction a as [| d rest IH]; simpl; [reflexivity |].
  now destruct (Ascii.eqb d c).
Qed.

Lemma contains_sep c b : contains c (String c b) = true.
Proof. cbn [contains]. now rewrite Ascii.eqb_refl. Qed.

Section WithFramework.

Context `{F : Framework}.

Lemma create_event_plain event_str state w :
  contains "|" event_str = false ->
  _create_activation_event event_str state w
  = (Ok tt, with_handler w (posting w state event_str 0)).
Proof.
  intros H. unfold _create_activation_event, bind. now rewrite H.
Qed.

Lemma create_event_delay event ev_time ms state w :
  contains "|" event = false ->
  contains "|" ev_time = false ->
  string_to_ms ev_time = Ok ms ->
  _create_activation_event (event +:+ String "|" ev_time) state w
  = (Ok tt, with_handler w (posting w state event ms)).
Proof.
  intros He Ht Hms. unfold _create_activation_event, bind.
  rewrite contains_app, contains_sep, orb_true_r.
  rewrite (split_app _ _ _ He), (split_without _ _ Ht).
  unfold lift. now rewrite Hms.
Qed.

(** *** Construction and polarity *)

Lemma example_world_constructed type tags :
  __init__ (example_device type tags) example_machine
  = (Ok (self (example_world type tags)),
     machine (example_world type tags)).
Proof. reflexivity. Qed.

(** C9. [__init__] always returns a switch whose logical state, hardware
    state, invert, recycle_secs, recycle_clear_time and
    recycle_jitter_count are 0, and it has registered the switch's name
    with the switch controller by the time it returns. *)
Theorem init_all_zero_and_registered (base : Device) (m : MachineController) :
  exists s m',
    __init__ base m = (Ok s, m')
    /\ device s = base
    /\ state s = 0 /\ hw_state s = 0 /\ invert s = 0
    /\ recycle_secs s = 0%Q
    /\ recycle_clear_time s = 0 /\ recycle_jitter_count s = 0
    /\ hw_switch s = None /\ platform s = None
    /\ registered_switches m' = registered_switches m ++ [name base]
    /\ In (name (device s)) (registered_switches m')
    /\ switch_handlers m' = switch_handlers m.
Proof.
  eexists. eexists. split; [reflexivity |]. cbn.
  repeat split; try reflexivity.
  apply in_or_app. right. now left.
Qed.

(** *** Activation events *)

(** C6. An event string [event|ev_time] with a single bar registers a
    handler posting [event] with [ms] the parsed [ev_time]; an event string
    without a bar registers a handler posting it with [ms = 0].  Both for
    the switch's own name and the given trigger state. *)
Theorem create_activation_event_delay_suffix
    (event ev_time : string) (ms : Z) (plain : string) (state : Z)
    (w : World) :
  contains "|" event = false ->
  contains "|" ev_time = false ->
  string_to_ms ev_time = Ok ms ->
  contains "|" plain = false ->
  _create_activation_event (event +:+ "|" +:+ ev_time) state w
    = (Ok tt,
       with_handler w
         {| h_switch_name := name (device (self w)); h_state := state;
            h_callback := PostEvent event; h_ms := ms |})
  /\ _create_activation_event plain state w
    = (Ok tt,
       with_handler w
         {| h_switch_name := name (device (self w)); h_state := state;
            h_callback := PostEvent plain; h_ms := 0 |}).
Proof.
  intros He Ht Hms Hp. split.
  - now apply create_event_delay.
  - now apply create_event_plain.
Qed.

(** C10. An event string with more than one bar makes
    [_create_activation_event] raise [ValueError] at the unpacking of the
    split, and no handler is registered. *)
Theorem create_activation_event_two_bars
    (event_str : string) (state : Z) (w : World) :
  (1 < count_char "|" event_str)%nat ->
  _create_activation_event event_str state w = (Raise ValueError, w).
Proof.
  intros Hc. unfold _create_activation_event, bind.
  assert (contains "|" event_str = true) as -> by (apply contains_count; lia).
  pose proof (split_length "|" event_str) as Hlen.
  destruct (split "|" event_str) as [| a [| b [| c l]]]; cbn in Hlen;
    try lia; reflexivity.
Qed.

(** *** What [_initialize] does to the switch and to the machine *)

Lemma extends_refl w : extends w w.
Proof. split; [reflexivity |]. exists []. now rewrite app_nil_r. Qed.

Lemma extends_trans w1 w2 w3 : extends w1 w2 -> extends w2 w3 -> extends w1 w3.
Proof.
  intros [Hs1 [h1 Hh1]] [Hs2 [h2 Hh2]]. split; [congruence |].
  exists (h1 ++ h2). now rewrite Hh2, Hh1, app_assoc.
Qed.

Lemma extends_In w w' h :
  extends w w' ->
  In h (switch_handlers (machine w)) -> In h (switch_handlers (machine w')).
Proof. intros [_ [hs ->]] Hin. apply in_or_app. now left. Qed.

Lemma registers_only_ret {A} (a : A) : registers_only (ret a).
Proof. intros w. apply extends_refl. Qed.

Lemma registers_only_bind {A B} (m : M World A) (k : A -> M World B) :
  registers_only m -> (forall a, registers_only (k a)) ->
  registers_only (bind m k).
Proof.
  intros Hm Hk w. unfold bind. specialize (Hm w).
  destruct (m w) as [[a | e] w1]; cbn in *; [| exact Hm].
  eapply extends_trans; [exact Hm | apply Hk].
Qed.

Lemma registers_only_for_each {A} (l : list A) (body : A -> M World unit) :
  (forall x, registers_only (body x)) -> registers_only (for_each l body).
Proof.
  intros Hb. induction l as [| x rest IH]; cbn [for_each].
  - apply registers_only_ret.
  - apply registers_only_bind; [apply Hb | intros _; exact IH].
Qed.

Lemma registers_only_create_event event_str state :
  registers_only (_create_activation_event event_str state).
Proof.
  intros w. unfold _create_activation_event, bind, raise, ret, lift.
  destruct (contains "|" event_str).
  - destruct (split "|" event_str) as [| a [| b [| c l]]];
      cbn; try apply extends_refl.
    destruct (string_to_ms b); cbn; [| apply extends_refl].
    split; [reflexivity |]. eexists. reflexivity.
  - cbn. split; [reflexivity |]. eexists. reflexivity.
Qed.

Lemma bind_Ok {St A B} (m : M St A) (k : A -> M St B) s b s' :
  bind m k s = (Ok b, s') ->
  exists a s1, m s = (Ok a, s1) /\ k a s1 = (Ok b, s').
Proof.
  unfold bind. destruct (m s) as [[a | e] s1]; [eauto | discriminate].
Qed.

Lemma initialize_unfold w :
  _initialize w
  = register_events w {| self := configured_self w; machine := machine w |}.
Proof.
  unfold _initialize, register_events, configured_self, tag_events.
  unfold bind at 1. cbn [get].
  unfold bind at 1. cbn [set_self modify self machine].
  unfold bind at 1.
  destruct (String.eqb (upper (cfg_type (config (device (self w))))) "NC");
    reflexivity.
Qed.

Lemma registers_only_tag_events template tag :
  registers_only (tag_events template tag).
Proof.
  unfold tag_events.
  repeat (apply registers_only_bind; [| intros _]);
    apply registers_only_create_event.
Qed.

Lemma registers_only_register_events w0 : registers_only (register_events w0).
Proof.
  unfold register_events.
  apply registers_only_bind.
  { destruct (auto_create_switch_events (mpf (machine w0))).
    - apply registers_only_bind; [| intros _];
        apply registers_only_create_event.
    - apply registers_only_ret. }
  intros _. apply registers_only_bind.
  { apply registers_only_for_each. intros x.
    apply registers_only_tag_events. }
  intros _. apply registers_only_bind.
  { apply registers_only_for_each. intros x.
    apply registers_only_create_event. }
  intros _. apply registers_only_for_each. intros x.
  apply registers_only_create_event.
Qed.

Lemma initialize_self w : self (snd (_initialize w)) = configured_self w.
Proof.
  rewrite initialize_unfold.
  now destruct (registers_only_register_events w
                  {| self := configured_self w; machine := machine w |}).
Qed.

(** C5. A switch constructed by [__init__] and then initialised has
    [invert = 1] when its configured type is NC and keeps [invert = 0]
    when it is NO, whatever else initialisation does. *)
Theorem initialize_invert_from_polarity
    (base : Device) (m m' m_now : MachineController) (s : Switch) :
  __init__ base m = (Ok s, m') ->
  let s' := self (snd (_initialize {| self := s; machine := m_now |})) in
  (cfg_type (config base) = "NC" -> invert s' = 1)
  /\ (cfg_type (config base) = "NO" -> invert s' = 0).
Proof.
  intros Hinit s'. subst s'. rewrite initialize_self.
  unfold __init__, bind in Hinit. cbn in Hinit.
  injection Hinit as <- _.
  unfold configured_self. cbn [self device].
  split; intros ->; reflexivity.
Qed.

(** *** Tag events *)

Lemma tag_events_plain template tag w :
  contains "|" (replace "%" tag template) = false ->
  tag_events template tag w
  = (Ok tt,
     with_handler
       (with_handler
          (with_handler w (posting w 1 (replace "%" tag template) 0))
          (posting w 1 (replace "%" tag template +:+ "_active") 0))
       (posting w 0 (replace "%" tag template +:+ "_inactive") 0)).
Proof.
  intros H. unfold tag_events, bind.
  rewrite (create_event_plain _ _ _ H).
  rewrite create_event_plain by (rewrite contains_app, H; reflexivity).
  rewrite create_event_plain by (rewrite contains_app, H; reflexivity).
  reflexivity.
Qed.

Lemma for_each_tag_events template tags tag w w' :
  for_each tags (tag_events template) w = (Ok tt, w') ->
  In tag tags ->
  contains "|" (replace "%" tag template) = false ->
  let ev := replace "%" tag template in
  In (posting w 1 ev 0) (switch_handlers (machine w'))
  /\ In (posting w 1 (ev +:+ "_active") 0) (switch_handlers (machine w'))
  /\ In (posting w 0 (ev +:+ "_inactive") 0) (switch_handlers (machine w')).
Proof.
  revert w. induction tags as [| t rest IH]; intros w Hrun Hin Hbar;
    [destruct Hin |].
  cbn [for_each] in Hrun. apply bind_Ok in Hrun as ([] & w1 & Hone & Hrest).
  pose proof (registers_only_for_each rest (tag_events template)
                (registers_only_tag_events template) w1) as Hext.
  rewrite Hrest in Hext. cbn [snd] in Hext.
  destruct Hin as [-> | Hin].
  - rewrite (tag_events_plain _ _ _ Hbar) in Hone.
    injection Hone as <-. cbn zeta.
    repeat split; apply (extends_In _ _ _ Hext); cbn;
      rewrite !in_app_iff; cbn; tauto.
  - pose proof (registers_only_tag_events template t w) as [Hs _].
    rewrite Hone in Hs. cbn [snd] in Hs.
    specialize (IH w1 Hrest Hin Hbar). cbn zeta in IH.
    unfold posting in *. rewrite Hs in IH. exact IH.
Qed.

(** C7, as the code has it.  When [_initialize] completes, every tag whose
    event name (the tag event template with [%] replaced by the tag) has
    no bar has three handlers of this switch with [ms = 0]: for state 1
    one posting that name and one posting it followed by [_active], and
    for state 0 one posting it followed by [_inactive]. *)
Theorem initialize_registers_tag_events (w w' : World) (tag : string) :
  _initialize w = (Ok tt, w') ->
  In tag (tags (device (self w))) ->
  let ev := replace "%" tag (switch_tag_event (mpf (machine w))) in
  let sw := name (device (self w)) in
  contains "|" ev = false ->
  In {| h_switch_name := sw; h_state := 1;
        h_callback := PostEvent ev; h_ms := 0 |}
     (switch_handlers (machine w'))
  /\ In {| h_switch_name := sw; h_state := 1;
           h_callback := PostEvent (ev +:+ "_active"); h_ms := 0 |}
        (switch_handlers (machine w'))
  /\ In {| h_switch_name := sw; h_state := 0;
           h_callback := PostEvent (ev +:+ "_inactive"); h_ms := 0 |}
        (switch_handlers (machine w')).
Proof.
  intros Hrun Hin ev sw Hbar.
  rewrite initialize_unfold in Hrun. unfold register_events in Hrun.
  apply bind_Ok in Hrun as ([] & w1 & Hauto & Hrun).
  apply bind_Ok in Hrun as ([] & w2 & Htags & Hrun).
  assert (extends {| self := configured_self w; machine := machine w |} w1)
    as [Hself1 _].
  { match type of Hauto with ?m ?w0 = _ =>
      assert (registers_only m) as Hm end.
    { destruct (auto_create_switch_events (mpf (machine w))).
      - apply registers_only_bind; [| intros _];
          apply registers_only_create_event.
      - apply registers_only_ret. }
    specialize (Hm {| self := configured_self w; machine := machine w |}).
    now rewrite Hauto in Hm. }
  assert (extends w2 w') as Hext.
  { match type of Hrun with ?m ?w0 = _ =>
      assert (registers_only m) as Hm end.
    { apply registers_only_bind; [| intros _];
        apply registers_only_for_each; intros x;
        apply registers_only_create_event. }
    specialize (Hm w2). now rewrite Hrun in Hm. }
  pose proof (for_each_tag_events _ _ tag _ _ Htags Hin Hbar) as H.
  cbn zeta in H. unfold posting in H. rewrite Hself1 in H.
  cbn [self] in H.
  assert (name (device (configured_self w)) = sw) as Hname.
  { unfold configured_self.
    destruct (String.eqb (upper (cfg_type (config (device (self w))))) "NC");
      reflexivity. }
  rewrite Hname in H. destruct H as (H1 & H2 & H3).
  repeat split; apply (extends_In _ _ _ Hext); assumption.
Qed.

(** *** Duplicate switch numbers *)

Lemma keys_cons s hw rest :
  hw_switch s = Some hw -> keys (s :: rest) = (platform s, number hw) :: keys rest.
Proof. intros H. unfold keys, switch_key. cbn. now rewrite H. Qed.


Lemma check_loop_spec l :
  Forall configured l ->
  forall check_set,
    (check_loop check_set l = Ok tt <->
       NoDup (keys l) /\ forall k, k ∈ keys l -> k ∉ check_set)
    /\ (check_loop check_set l = Ok tt \/
        check_loop check_set l = Raise AssertionError).
Proof.
  induction 1 as [| s rest [hw Hhw] _ IH]; intros check_set.
  - cbn. split; [| now left]. split; [| reflexivity].
    intros _. split; [constructor | intros k Hk; inversion Hk].
  - rewrite (keys_cons _ _ _ Hhw). cbn [check_loop]. rewrite Hhw.
    destruct (decide ((platform s, number hw) ∈ check_set)) as [Hin | Hnin].
    + split; [| now right]. split; [discriminate |].
      intros [_ Hfresh]. exfalso. apply (Hfresh (platform s, number hw)); [| exact Hin].
      apply elem_of_cons. now left.
    + destruct (IH (check_set ∪ {[(platform s, number hw)]})) as [Hiff Hcases].
      split; [| exact Hcases].
      rewrite Hiff, NoDup_cons. split.
      * intros [Hnd Hfresh]. repeat split; [| exact Hnd |].
        -- intros Hk. apply (Hfresh _ Hk).
           apply elem_of_union. right. now apply elem_of_singleton.
        -- intros k Hk. apply elem_of_cons in Hk as [-> | Hk]; [exact Hnin |].
           intros HS. apply (Hfresh k Hk), elem_of_union. now left.
      * intros [[Hk Hnd] Hfresh]. split; [exact Hnd |].
        intros k Hkin HU. apply elem_of_union in HU as [HS | Hsame].
        -- apply (Hfresh k); [apply elem_of_cons; now right | exact HS].
        -- apply elem_of_singleton in Hsame. subst k. contradiction.
Qed.


Lemma check_ignores_event_handlers (m : MachineController) :
  _check_duplicate_switch_numbers (snd (device_class_init m))
  = _check_duplicate_switch_numbers m.
Proof. reflexivity. Qed.






End WithFramework.

(** *** The class on concrete inputs *)

Example two_switches_same_number_same_platform :
  _check_duplicate_switch_numbers
    (example_machine_with
       [example_switch "fast" "5"; example_switch "fast" "5"])
  = Raise AssertionError.
Proof. vm_compute. reflexivity. Qed.

Example two_switches_same_number_other_platform :
  _check_duplicate_switch_numbers
    (example_machine_with
       [example_switch "fast" "5"; example_switch "p_roc" "5"])
  = Ok tt.
Proof. vm_compute. reflexivity. Qed.



Lemma initialize_invert_from_polarity_witness :
  invert (self (snd (_initialize (example_world "NC" [])))) = 1
  /\ invert (self (snd (_initialize (example_world "NO" [])))) = 0.
Proof.
  split.
  - refine (proj1 (initialize_invert_from_polarity
                     (F := reference_framework)
                     (example_device "NC" []) example_machine _
                     (machine (example_world "NC" [])) _ eq_refl) eq_refl).
  - refine (proj2 (initialize_invert_from_polarity
                     (F := reference_framework)
                     (example_device "NO" []) example_machine _
                     (machine (example_world "NO" [])) _ eq_refl) eq_refl).
Defined.

Lemma create_activation_event_delay_suffix_witness :
  let w := example_world "NO" [] in
  _create_activation_event "event_name|250" 1 w
  = (Ok tt,
     with_handler w
       {| h_switch_name := "s_start"; h_state := 1;
          h_callback := PostEvent "event_name"; h_ms := 250 |})
  /\ _create_activation_event "event_name" 1 w
  = (Ok tt,
     with_handler w
       {| h_switch_name := "s_start"; h_state := 1;
          h_callback := PostEvent "event_name"; h_ms := 0 |}).
Proof.
  intros w.
  exact (create_activation_event_delay_suffix (F := reference_framework)
           "event_name" "250" 250 "event_name" 1 w
           eq_refl eq_refl eq_refl eq_refl).
Defined.

Lemma create_activation_event_two_bars_witness :
  let w := example_world "NO" [] in
  (1 < count_char "|" "ball_start|250|500")%nat
  /\ _create_activation_event "ball_start|250|500" 1 w = (Raise ValueError, w).
Proof.
  intros w.
  assert (1 < count_char "|" "ball_start|250|500")%nat as Hc
    by (vm_compute; lia).
  split; [exact Hc |].
  exact (create_activation_event_two_bars (F := reference_framework)
           "ball_start|250|500" 1 w Hc).
Defined.

Example initialize_example_handlers :
  _initialize (example_world "NO" ["start"])
  = (Ok tt,
     {| self :=
          configured_self (example_world "NO" ["start"]);
        machine :=
          mkMachine (F := reference_framework) example_mpf [] ["s_start"]
            [ mkSwitchHandler "s_start" 1 (PostEvent "s_start_active") 0;
              mkSwitchHandler "s_start" 0 (PostEvent "s_start_inactive") 0;
              mkSwitchHandler "s_start" 1 (PostEvent "sw_start") 0;
              mkSwitchHandler "s_start" 1 (PostEvent "sw_start_active") 0;
              mkSwitchHandler "s_start" 0 (PostEvent "sw_start_inactive") 0 ]
            [] |}).
Proof. vm_compute. reflexivity. Qed.

Lemma initialize_registers_tag_events_witness :
  let w := example_world "NO" ["start"] in
  let handlers := switch_handlers (machine (snd (_initialize w))) in
  In (mkSwitchHandler "s_start" 1 (PostEvent "sw_start") 0) handlers
  /\ In (mkSwitchHandler "s_start" 1 (PostEvent "sw_start_active") 0) handlers
  /\ In (mkSwitchHandler "s_start" 0 (PostEvent "sw_start_inactive") 0)
        handlers.
Proof.
  intros w handlers.
  refine (initialize_registers_tag_events (F := reference_framework)
            w (snd (_initialize w)) "start" _ _ eq_refl).
  - vm_compute. reflexivity.
  - left. reflexivity.
Defined.

(** C7 as stated fails for the deactivation side: for the tag [start] and
    the template [sw_%] initialisation completes, and no handler for state
    0 posts the event [sw_start]; the one it registers posts
    [sw_start_inactive]. *)
Lemma initialize_registers_tag_events_counterexample :
  let w := example_world "NO" ["start"] in
  let w' := snd (_initialize w) in
  fst (_initialize w) = Ok tt
  /\ In "start"%string (tags (device (self w)))
  /\ replace "%" "start" (switch_tag_event (mpf (machine w))) = "sw_start"%string
  /\ ~ (exists h, In h (switch_handlers (machine w'))
                  /\ h_state h = 0
                  /\ h_callback h = PostEvent "sw_start").
Proof.
  intros w w'. subst w w'. rewrite initialize_example_handlers. cbn.
  repeat split; [now left |].
  intros (h & Hin & Hstate & Hcb).
  repeat (destruct Hin as [<- | Hin]; [cbn in *; discriminate |]).
  destruct Hin.
Qed.

End SwitchSpec.

(** ** More on the Maestro platform *)

Module MaestroExtra.

Import Maestro MaestroSpec.
Local Open Scope Z_scope.




Lemma chr_out_of_range i :
  ~ (0 <= i < 0x110000) ->
  chr i = Raise (if (i <? - 0x80000000) || (0x7fffffff <? i)
                 then OverflowError else ValueError).
Proof.
  intros H. unfold chr.
  destruct ((i <? - 0x80000000) || (0x7fffffff <? i)); [reflexivity |].
  destruct (Z.leb_spec 0 i), (Z.ltb_spec i 0x110000); cbn; try reflexivity.
  lia.
Qed.







(** *** The clamp *)

Lemma clamped_min_max cfg position :
  clamped cfg position =
    let p1 := if servo_min cfg >? 0
              then Z.max position (servo_min cfg) else position in
    if servo_max cfg >? 0 then Z.min p1 (servo_max cfg) else p1.
Proof.
  unfold clamped. cbn zeta.
  destruct (Z.gtb_spec (servo_min cfg) 0), (Z.gtb_spec (servo_max cfg) 0);
    cbn [andb];
    repeat match goal with
           | |- context [?a <? ?b] => destruct (Z.ltb_spec a b)
           | |- context [?a >? ?b] => destruct (Z.gtb_spec a b)
           end; lia.
Qed.

Ltac clamp_min_max :=
  rewrite ?clamped_min_max; cbn zeta;
  repeat match goal with
         | |- context [?a >? 0] => destruct (Z.gtb_spec a 0)
         end; lia.

(** The encoded position never exceeds a positive [servo_max], and is
    never below a positive [servo_min] unless a smaller positive
    [servo_max] overrides it. *)
Theorem clamped_within_bounds cfg position :
  (0 < servo_max cfg -> clamped cfg position <= servo_max cfg)
  /\ (0 < servo_min cfg ->
      servo_max cfg <= 0 \/ servo_min cfg <= servo_max cfg ->
      servo_min cfg <= clamped cfg position).
Proof. split; intros; clamp_min_max. Qed.

Lemma clamped_within_bounds_witness :
  clamped (mkConfig 3000 9000) 20000 <= 9000
  /\ 3000 <= clamped (mkConfig 3000 9000) (-5).
Proof.
  split.
  - refine (proj1 (clamped_within_bounds (mkConfig 3000 9000) 20000) _).
    cbn. lia.
  - refine (proj2 (clamped_within_bounds (mkConfig 3000 9000) (-5)) _ _);
      cbn; lia.
Defined.

(** Clamping an already clamped position changes nothing, whatever the
    bounds, also when [servo_min] exceeds [servo_max]. *)
Theorem clamped_idempotent cfg position :
  clamped cfg (clamped cfg position) = clamped cfg position.
Proof. clamp_min_max. Qed.

(** The clamp keeps the order of requests: a larger request is never
    encoded as a smaller position. *)
Theorem clamped_monotone cfg p q :
  p <= q -> clamped cfg p <= clamped cfg q.
Proof. intros. clamp_min_max. Qed.

Lemma clamped_monotone_witness :
  clamped (mkConfig 3000 9000) 1000 <= clamped (mkConfig 3000 9000) 15000.
Proof.
  refine (clamped_monotone (mkConfig 3000 9000) 1000 15000 _). lia.
Defined.

(** *** Errors and the life cycle *)

(** A channel number [chr] rejects makes the position and speed commands
    raise while the text is being built, [OverflowError] when the number
    does not fit a C int and [ValueError] otherwise: [serial.write] is
    not reached and the platform is unchanged, whether or not the port is
    open. *)
Theorem bad_channel_raises number value self :
  ~ (0 <= number < 0x110000) ->
  let e := if (number <? - 0x80000000) || (0x7fffffff <? number)
           then OverflowError else ValueError in
  servo_go_to_position number value self = (Raise e, self)
  /\ set_speed number value self = (Raise e, self).
Proof.
  intros Hn e.
  unfold servo_go_to_position, set_speed, bind, get, lift.
  rewrite (chr_in_range 0x04), (chr_in_range 0x07) by lia.
  rewrite (chr_out_of_range number Hn). split; reflexivity.
Qed.

Lemma bad_channel_raises_witness :
  servo_go_to_position (-1) 6000 (ready_platform (mkConfig 0 0))
    = (Raise ValueError, ready_platform (mkConfig 0 0))
  /\ set_speed 0x80000000 60 (__init__ (mkConfig 0 0))
     = (Raise OverflowError, __init__ (mkConfig 0 0)).
Proof.
  split.
  - refine (proj1 (bad_channel_raises (-1) 6000
                     (ready_platform (mkConfig 0 0)) _)).
    lia.
  - refine (proj2 (bad_channel_raises 0x80000000 60
                     (__init__ (mkConfig 0 0)) _)).
    lia.
Defined.

(** Between [__init__] and [initialize] there is no serial object: a
    command with a valid channel, and [stop], raise [AttributeError] and
    leave the platform as it was. *)
Theorem before_initialize_raises cfg number value :
  0 <= number < 0x110000 ->
  servo_go_to_position number value (__init__ cfg)
    = (Raise AttributeError, __init__ cfg)
  /\ set_speed number value (__init__ cfg)
    = (Raise AttributeError, __init__ cfg)
  /\ stop (__init__ cfg) = (Raise AttributeError, __init__ cfg).
Proof.
  intros Hn.
  unfold servo_go_to_position, set_speed, bind, get, lift.
  rewrite (chr_in_range number Hn), !chr_low7. cbn. repeat split.
Qed.

Lemma before_initialize_raises_witness :
  set_speed 0 10 (__init__ (mkConfig 3000 9000))
  = (Raise AttributeError, __init__ (mkConfig 3000 9000)).
Proof.
  refine (proj1 (proj2 (before_initialize_raises
                          (mkConfig 3000 9000) 0 10 _))).
  lia.
Defined.

(** [initialize] either returns with the port open, nothing written and
    the header as [__init__] set it, or raises what one of its outside
    calls raised and leaves the platform without a serial object, so that
    every later command raises [AttributeError]. *)
Theorem initialize_opens_or_raises machine cfg :
  match initialize machine (__init__ cfg) with
  | (Ok _, self) =>
      serial self = Some {| is_open := true; written := [] |}
      /\ cmd_header self = [0xaa; 0xc]
  | (Raise e, self) =>
      serial self = None
      /\ (e = SerialException \/ super_initialize machine = Raise e
          \/ fst (validate_config machine cfg) = Raise e
          \/ get_platform_sections machine = Raise e)
  end.
Proof.
  unfold initialize, bind, lift, modify, serial_Serial.
  destruct (super_initialize machine) as [[] | e]; [| cbn; auto].
  cbn [config __init__].
  destruct (validate_config machine cfg) as [[[] | e] cfg']; [| cbn; auto].
  destruct (get_platform_sections machine) as [p | e]; [| cbn; auto].
  cbn. destruct (port_opens machine (port p)); cbn; auto.
Qed.

(** A session on a platform built by [__init__] and opened by
    [initialize] ends at its first command: the speed command raises
    [TypeError] in [serial.write], the position command and [stop] are
    not reached, the port stays open and nothing has been written. *)
Theorem session_stops_at_first_command
    machine cfg self n1 speed n2 position :
  initialize machine (__init__ cfg) = (Ok tt, self) ->
  0 <= n1 < 0x110000 ->
  (_ <- set_speed n1 speed ;;
   _ <- servo_go_to_position n2 position ;;
   stop) self
  = (Raise TypeError, self)
  /\ serial self = Some {| is_open := true; written := [] |}.
Proof.
  intros Hinit H1.
  destruct (initialize_Ok _ _ _ Hinit) as (_ & Hserial & _).
  split; [| exact Hserial].
  unfold bind at 1. rewrite (set_speed_hands_over _ _ _ H1).
  now rewrite (serial_write_str_rejected _ _ [] Hserial).
Qed.

Lemma session_stops_at_first_command_witness :
  (_ <- set_speed 0 60 ;;
   _ <- servo_go_to_position 0 6000 ;;
   stop) (ready_platform (mkConfig 3000 9000))
  = (Raise TypeError, ready_platform (mkConfig 3000 9000)).
Proof.
  refine (proj1 (session_stops_at_first_command working_machine
                   (mkConfig 3000 9000)
                   (ready_platform (mkConfig 3000 9000)) 0 60 0 6000
                   eq_refl _)).
  lia.
Defined.

End MaestroExtra.

(** ** More on the Switch device *)

Module SwitchExtra.

Import Switch SwitchSpec.
Local Open Scope Z_scope.

Lemma split_pieces sep s piece :
  In piece (split sep s) -> contains sep piece = false.
Proof.
  revert piece. induction s as [| c rest IH]; intros piece; cbn [split].
  - intros [<- | []]. reflexivity.
  - destruct (Ascii.eqb c sep) eqn:E.
    + intros [<- | Hin]; [reflexivity | now apply IH].
    + destruct (split sep rest) as [| first others] eqn:Es.
      * intros [<- | []]. cbn [contains]. now rewrite E.
      * intros [<- | Hin].
        -- cbn [contains]. rewrite E. apply IH. now left.
        -- apply IH. now right.
Qed.

Section WithFramework.

Context `{F : Framework}.

(** The two ways a call of [_create_activation_event] ends. *)
Lemma create_event_cases event_str state w :
  (exists event ms,
     contains "|" event = false
     /\ _create_activation_event event_str state w
        = (Ok tt, with_handler w (posting w state event ms)))
  \/ (exists e, _create_activation_event event_str state w = (Raise e, w)).
Proof.
  unfold _create_activation_event, bind, raise, ret, lift.
  destruct (contains "|" event_str) eqn:Hbar.
  - pose proof (split_pieces "|" event_str) as Hp.
    destruct (split "|" event_str) as [| a [| b [| c l]]];
      try (right; eexists; reflexivity).
    destruct (string_to_ms b) as [ms | e]; [| right; eexists; reflexivity].
    left. exists a, ms. split; [apply Hp; now left | reflexivity].
  - left. exists event_str, 0. split; [exact Hbar | reflexivity].
Qed.

(** A call of [_create_activation_event] either returns after registering
    exactly one handler, for this switch and the given state, posting an
    event name without a bar, or raises and leaves the switch and the
    machine as they were. *)
Theorem create_activation_event_outcome event_str state w :
  match _create_activation_event event_str state w with
  | (Ok _, w') =>
      exists event ms,
        contains "|" event = false
        /\ w' = with_handler w
                  {| h_switch_name := name (device (self w));
                     h_state := state;
                     h_callback := PostEvent event;
                     h_ms := ms |}
  | (Raise _, w') => w' = w
  end.
Proof.
  destruct (create_event_cases event_str state w)
    as [(event & ms & Hbar & ->) | (e & ->)]; [| reflexivity].
  exists event, ms. split; [exact Hbar | reflexivity].
Qed.

(** When the text after the single bar is not a time [Util.string_to_ms]
    accepts, its exception comes out of [_create_activation_event] and no
    handler is registered. *)
Theorem create_activation_event_bad_delay
    (event ev_time : string) (e : exn) (state : Z) (w : World) :
  contains "|" event = false ->
  contains "|" ev_time = false ->
  string_to_ms ev_time = Raise e ->
  _create_activation_event (event +:+ "|" +:+ ev_time) state w = (Raise e, w).
Proof.
  intros He Ht Hms.
  change (event +:+ "|" +:+ ev_time) with (event +:+ String "|" ev_time).
  unfold _create_activation_event, bind.
  rewrite contains_app, contains_sep, orb_true_r.
  rewrite (split_app _ _ _ He), (split_without _ _ Ht).
  unfold lift. now rewrite Hms.
Qed.

(** *** What [_initialize] registers *)

Lemma adds_handlers_refl n w : adds_handlers_for n w w.
Proof.
  repeat split. exists []. split; [now rewrite app_nil_r | constructor].
Qed.

Lemma adds_handlers_trans n w1 w2 w3 :
  adds_handlers_for n w1 w2 -> adds_handlers_for n w2 w3 ->
  adds_handlers_for n w1 w3.
Proof.
  intros (Hs1 & Hc1 & Hr1 & He1 & h1 & Hm1 & Hf1)
         (Hs2 & Hc2 & Hr2 & He2 & h2 & Hm2 & Hf2).
  repeat split; try congruence.
  exists (h1 ++ h2). split.
  - now rewrite Hm2, Hm1, app_assoc.
  - apply Forall_app. now split.
Qed.

Lemma registers_for_self_ret {A} (a : A) : registers_for_self (ret a).
Proof. intros w. apply adds_handlers_refl. Qed.

Lemma registers_for_self_bind {A B} (m : M World A) (k : A -> M World B) :
  registers_for_self m -> (forall a, registers_for_self (k a)) ->
  registers_for_self (bind m k).
Proof.
  intros Hm Hk w. unfold bind. specialize (Hm w).
  destruct (m w) as [[a | e] w1]; cbn in *; [| exact Hm].
  eapply adds_handlers_trans; [exact Hm |].
  specialize (Hk a w1). destruct Hm as [Hs _]. now rewrite Hs in Hk.
Qed.

Lemma registers_for_self_for_each {A} (l : list A) (body : A -> M World unit) :
  (forall x, registers_for_self (body x)) ->
  registers_for_self (for_each l body).
Proof.
  intros Hb. induction l as [| x rest IH]; cbn [for_each].
  - apply registers_for_self_ret.
  - apply registers_for_self_bind; [apply Hb | intros _; exact IH].
Qed.

Lemma registers_for_self_create_event event_str state :
  registers_for_self (_create_activation_event event_str state).
Proof.
  intros w.
  destruct (create_event_cases event_str state w)
    as [(event & ms & _ & ->) | (e & ->)]; cbn [snd].
  - repeat split. eexists. split; [reflexivity |]. repeat constructor.
  - apply adds_handlers_refl.
Qed.

Lemma registers_for_self_register_events w0 :
  registers_for_self (register_events w0).
Proof.
  unfold register_events, tag_events.
  repeat first
    [ apply registers_for_self_create_event
    | apply registers_for_self_ret
    | apply registers_for_self_bind; [| intros _]
    | apply registers_for_self_for_each; intros ?
    | destruct (auto_create_switch_events (mpf (machine w0))) ].
Qed.

Lemma configured_self_device w : device (configured_self w) = device (self w).
Proof.
  unfold configured_self.
  now destruct (String.eqb (upper (cfg_type (config (device (self w))))) "NC").
Qed.

(** Whether it returns or raises, [_initialize] only appends switch
    handlers, every one of them for the switch it runs on: the handlers
    registered before stay in place and in order, and the machine's
    configuration, registered names and event handlers are untouched. *)
Theorem initialize_only_adds_own_handlers (w : World) :
  let m' := machine (snd (_initialize w)) in
  (exists hs,
     switch_handlers m' = switch_handlers (machine w) ++ hs
     /\ Forall (fun h => h_switch_name h = name (device (self w))) hs)
  /\ mpf m' = mpf (machine w)
  /\ registered_switches m' = registered_switches (machine w)
  /\ event_handlers m' = event_handlers (machine w).
Proof.
  cbn zeta. rewrite initialize_unfold.
  destruct (registers_for_self_register_events w
              {| self := configured_self w; machine := machine w |})
    as (_ & Hc & Hr & He & hs & Hm & Hall).
  cbn [self machine] in *. rewrite configured_self_device in Hall.
  repeat split; try assumption. exists hs. now split.
Qed.

Lemma create_event_count event_str state w w' :
  _create_activation_event event_str state w = (Ok tt, w') ->
  length (switch_handlers (machine w'))
  = S (length (switch_handlers (machine w))).
Proof.
  destruct (create_event_cases event_str state w)
    as [(event & ms & _ & ->) | (e & ->)]; [| discriminate].
  intros [= <-]. cbn. rewrite length_app. cbn. lia.
Qed.

Lemma for_each_count {A} (l : list A) (body : A -> M World unit) (k : nat) :
  (forall x w w',
     body x w = (Ok tt, w') ->
     length (switch_handlers (machine w'))
     = (length (switch_handlers (machine w)) + k)%nat) ->
  forall w w',
    for_each l body w = (Ok tt, w') ->
    length (switch_handlers (machine w'))
    = (length (switch_handlers (machine w)) + k * length l)%nat.
Proof.
  intros Hb. induction l as [| x rest IH]; intros w w' Hrun;
    cbn [for_each] in Hrun.
  - injection Hrun as <-. cbn. lia.
  - apply bind_Ok in Hrun as ([] & w1 & Hone & Hrest).
    rewrite (IH _ _ Hrest), (Hb _ _ _ Hone). cbn [length]. lia.
Qed.

(** A completed [_initialize] has registered exactly two handlers when
    switch events are auto-created, three per tag, and one per configured
    activation and deactivation event. *)
Theorem initialize_handler_count (w w' : World) :
  _initialize w = (Ok tt, w') ->
  length (switch_handlers (machine w'))
  = (length (switch_handlers (machine w)) + handlers_to_register w)%nat.
Proof.
  intros Hrun. rewrite initialize_unfold in Hrun.
  unfold register_events in Hrun.
  apply bind_Ok in Hrun as ([] & w1 & Hauto & Hrun).
  apply bind_Ok in Hrun as ([] & w2 & Htags & Hrun).
  apply bind_Ok in Hrun as ([] & w3 & Hact & Hdeact).
  apply (for_each_count _ _ 1) in Hdeact;
    [| intros x a b H; rewrite (create_event_count _ _ _ _ H); lia].
  apply (for_each_count _ _ 1) in Hact;
    [| intros x a b H; rewrite (create_event_count _ _ _ _ H); lia].
  apply (for_each_count _ _ 3) in Htags.
  2:{ intros x a b H. unfold tag_events in H.
      apply bind_Ok in H as ([] & a1 & H1 & H).
      apply bind_Ok in H as ([] & a2 & H2 & H3).
      rewrite (create_event_count _ _ _ _ H3), (create_event_count _ _ _ _ H2),
        (create_event_count _ _ _ _ H1). lia. }
  assert (length (switch_handlers (machine w1))
          = (length (switch_handlers (machine w))
             + (if auto_create_switch_events (mpf (machine w))
                then 2 else 0))%nat) as Hauto'.
  { destruct (auto_create_switch_events (mpf (machine w))).
    - apply bind_Ok in Hauto as ([] & a1 & H1 & H2).
      rewrite (create_event_count _ _ _ _ H2), (create_event_count _ _ _ _ H1).
      cbn. lia.
    - injection Hauto as <-. cbn. lia. }
  unfold handlers_to_register. lia.
Qed.

(** Whether the event registrations succeed or not, [_initialize] leaves
    the switch bound to its platform and to the hardware switch that
    platform configured, and the platform was given the same [invert] the
    switch ends with; the logical and hardware state and the recycle
    bookkeeping are not touched. *)
Theorem initialize_configures_switch (w : World) :
  let s' := self (snd (_initialize w)) in
  let cfg := config (device (self w)) in
  let plat := get_platform_sections "switches" (cfg_platform cfg) in
  platform s' = Some plat
  /\ hw_switch s'
     = Some (configure_switch plat (cfg_number cfg)
               {| sc_invert := invert s'; sc_debounce := cfg_debounce cfg |}
               (cfg_platform_settings cfg))
  /\ (invert s' = 1 \/ invert s' = invert (self w))
  /\ device s' = device (self w)
  /\ state s' = state (self w)
  /\ hw_state s' = hw_state (self w)
  /\ recycle_clear_time s' = recycle_clear_time (self w)
  /\ recycle_jitter_count s' = recycle_jitter_count (self w).
Proof.
  cbn zeta. rewrite initialize_self. unfold configured_self.
  destruct (String.eqb (upper (cfg_type (config (device (self w))))) "NC");
    cbn; repeat split; auto.
Qed.

(** *** More on the duplicate check *)

Lemma check_loop_prefix_raises l1 l2 e :
  forall check_set,
    check_loop check_set l1 = Raise e ->
    check_loop check_set (l1 ++ l2) = Raise e.
Proof.
  induction l1 as [| s rest IH]; intros check_set; cbn [check_loop app];
    [discriminate |].
  destruct (hw_switch s) as [hw |]; [| trivial].
  destruct (decide ((platform s, number hw) ∈ check_set)); [trivial |].
  apply IH.
Qed.

Lemma check_loop_unbound pre s post :
  hw_switch s = None ->
  forall check_set,
    check_loop check_set pre = Ok tt ->
    check_loop check_set (pre ++ s :: post) = Raise AttributeError.
Proof.
  intros Hnone.
  induction pre as [| a rest IH]; intros check_set; cbn [check_loop app].
  - intros _. now rewrite Hnone.
  - destruct (hw_switch a) as [hw |]; [| discriminate].
    destruct (decide ((platform a, number hw) ∈ check_set)); [discriminate |].
    apply IH.
Qed.

(** Once the check raises on the switches seen so far, it raises the same
    exception however many switches follow: a later switch never repairs
    an earlier failure. *)
Theorem check_failure_is_final (m1 m : MachineController)
    (more : list Switch) (e : exn) :
  switches m = switches m1 ++ more ->
  _check_duplicate_switch_numbers m1 = Raise e ->
  _check_duplicate_switch_numbers m = Raise e.
Proof.
  unfold _check_duplicate_switch_numbers. intros ->.
  apply check_loop_prefix_raises.
Qed.

(** A switch whose hardware switch was never set makes the check raise
    [AttributeError], not [AssertionError], when the switches before it
    pass the check. *)
Theorem check_unbound_switch (m_before m : MachineController)
    (s : Switch) (after : list Switch) :
  switches m = switches m_before ++ s :: after ->
  _check_duplicate_switch_numbers m_before = Ok tt ->
  hw_switch s = None ->
  _check_duplicate_switch_numbers m = Raise AttributeError.
Proof.
  unfold _check_duplicate_switch_numbers. intros -> Hok Hnone.
  now apply check_loop_unbound.
Qed.

(** With every switch bound to its hardware switch, the outcome of the
    check does not depend on the order in which the machine lists its
    switches. *)
Theorem check_order_irrelevant (m m' : MachineController) :
  Forall (fun s => is_Some (hw_switch s)) (switches m) ->
  switches m ≡ₚ switches m' ->
  _check_duplicate_switch_numbers m = _check_duplicate_switch_numbers m'.
Proof.
  intros Hall Hperm.
  assert (Forall configured (switches m')) as Hall'
    by (now rewrite <- Hperm).
  unfold _check_duplicate_switch_numbers.
  destruct (check_loop_spec _ Hall ∅) as [Hok Hcases].
  destruct (check_loop_spec _ Hall' ∅) as [Hok' Hcases'].
  assert (keys (switches m) ≡ₚ keys (switches m')) as Hkeys
    by (unfold keys; now rewrite Hperm).
  assert (check_loop ∅ (switches m) = Ok tt <->
          check_loop ∅ (switches m') = Ok tt) as Hiff.
  { rewrite Hok, Hok'. split; intros [Hnd Hfresh]; split;
      try (intros k _; apply not_elem_of_empty).
    - now rewrite <- Hkeys.
    - now rewrite Hkeys. }
  destruct Hcases as [H1 | H1], Hcases' as [H2 | H2]; try congruence.
  - apply Hiff in H1. congruence.
  - apply Hiff in H2. congruence.
Qed.

(** Switches that went through [_initialize] all have a hardware switch,
    so on a machine made of such switches the check ends in [Ok] or
    [AssertionError], never in [AttributeError]. *)
Theorem check_after_initialize (ws : list World) (m : MachineController) :
  switches m = map (fun w => self (snd (_initialize w))) ws ->
  _check_duplicate_switch_numbers m = Ok tt
  \/ _check_duplicate_switch_numbers m = Raise AssertionError.
Proof.
  intros Hsw. unfold _check_duplicate_switch_numbers.
  apply (check_loop_spec (switches m)). rewrite Hsw.
  clear Hsw. induction ws as [| w rest IH]; cbn [map]; constructor;
    [| exact IH].
  rewrite initialize_self. unfold configured, configured_self. cbn. eauto.
Qed.

(** *** Polarity is read without regard to case *)

Lemma upper_char_N c : upper_char c = "N"%char <-> c = "N"%char \/ c = "n"%char.
Proof.
  destruct c as [[] [] [] [] [] [] [] []]; vm_compute;
    split; intros H; try discriminate; auto;
    destruct H as [H | H]; discriminate.
Qed.

Lemma upper_char_C c : upper_char c = "C"%char <-> c = "C"%char \/ c = "c"%char.
Proof.
  destruct c as [[] [] [] [] [] [] [] []]; vm_compute;
    split; intros H; try discriminate; auto;
    destruct H as [H | H]; discriminate.
Qed.

Lemma upper_NC t :
  upper t = "NC"%string
  <-> t = "NC"%string \/ t = "nc"%string \/ t = "Nc"%string \/ t = "nC"%string.
Proof.
  split.
  - destruct t as [| a [| b [| c r]]]; cbn [upper]; try discriminate.
    intros [= Ha Hb]. apply upper_char_N in Ha. apply upper_char_C in Hb.
    destruct Ha as [-> | ->], Hb as [-> | ->]; auto.
  - intros [-> | [-> | [-> | ->]]]; reflexivity.
Qed.

(** A switch constructed and then initialised is inverted exactly when
    its configured type reads NC in any mix of upper and lower case; every
    other type, not only NO, leaves [invert] at 0. *)
Theorem initialize_invert_ignores_case
    (base : Device) (m m' m_now : MachineController) (s : Switch) :
  __init__ base m = (Ok s, m') ->
  let s' := self (snd (_initialize {| self := s; machine := m_now |})) in
  let t := cfg_type (config base) in
  let reads_nc :=
    t = "NC"%string \/ t = "nc"%string \/ t = "Nc"%string \/ t = "nC"%string in
  (reads_nc -> invert s' = 1) /\ (~ reads_nc -> invert s' = 0).
Proof.
  intros Hinit. cbn zeta. rewrite initialize_self.
  unfold __init__, bind in Hinit. cbn in Hinit. injection Hinit as <- _.
  unfold configured_self. cbn [self device].
  rewrite <- upper_NC.
  destruct (String.eqb_spec (upper (cfg_type (config base))) "NC");
    cbn; split; intros; try reflexivity; contradiction.
Qed.

(** *** The switch's own events and the configured event lists *)

Lemma create_event_Ok_inv event_str state w w' :
  _create_activation_event event_str state w = (Ok tt, w') ->
  exists event ms,
    w' = with_handler w (posting w state event ms)
    /\ ((contains "|" event_str = false /\ event = event_str /\ ms = 0)
        \/ (exists ev_time,
              split "|" event_str = [event; ev_time]
              /\ string_to_ms ev_time = Ok ms)).
Proof.
  unfold _create_activation_event, bind, raise, ret, lift.
  destruct (contains "|" event_str) eqn:Hbar.
  - destruct (split "|" event_str) as [| a [| b [| c l]]];
      try discriminate.
    destruct (string_to_ms b) as [ms | e] eqn:Hms; [| discriminate].
    intros [= <-]. exists a, ms. split; [reflexivity |].
    right. exists b. now split.
  - intros [= <-]. exists event_str, 0. split; [reflexivity |]. now left.
Qed.

Lemma for_each_create_event (l : list string) (state : Z) (ev : string) w w' :
  for_each l (fun event => _create_activation_event event state) w
  = (Ok tt, w') ->
  In ev l ->
  exists w0 w1,
    self w0 = self w
    /\ _create_activation_event ev state w0 = (Ok tt, w1)
    /\ extends w1 w'.
Proof.
  revert w. induction l as [| e rest IH]; intros w Hrun Hin; [destruct Hin |].
  cbn [for_each] in Hrun. apply bind_Ok in Hrun as ([] & w1 & Hone & Hrest).
  destruct Hin as [-> | Hin].
  - exists w, w1. split; [reflexivity |]. split; [exact Hone |].
    pose proof (registers_only_for_each rest
                  (fun event => _create_activation_event event state)
                  (fun x => registers_only_create_event x state) w1) as Hext.
    now rewrite Hrest in Hext.
  - destruct (IH w1 Hrest Hin) as (w0 & w2 & Hs & Hev & Hext).
    exists w0, w2. split; [| now split].
    pose proof (registers_only_create_event e state w) as [Hs1 _].
    rewrite Hone in Hs1. cbn [snd] in Hs1. congruence.
Qed.

(** When [_initialize] completes with switch events auto-created and the
    two event names (the active and inactive templates with [%] replaced
    by the switch name) have no bar, the switch has a handler for state 1
    posting the active name and one for state 0 posting the inactive
    name, both with [ms = 0]. *)
Theorem initialize_registers_switch_events (w w' : World) :
  _initialize w = (Ok tt, w') ->
  auto_create_switch_events (mpf (machine w)) = true ->
  let sw := name (device (self w)) in
  let active := replace "%" sw (switch_event_active (mpf (machine w))) in
  let inactive := replace "%" sw (switch_event_inactive (mpf (machine w))) in
  contains "|" active = false ->
  contains "|" inactive = false ->
  In {| h_switch_name := sw; h_state := 1;
        h_callback := PostEvent active; h_ms := 0 |}
     (switch_handlers (machine w'))
  /\ In {| h_switch_name := sw; h_state := 0;
           h_callback := PostEvent inactive; h_ms := 0 |}
        (switch_handlers (machine w')).
Proof.
  intros Hrun Hauto sw active inactive Ha Hi.
  rewrite initialize_unfold in Hrun. unfold register_events in Hrun.
  apply bind_Ok in Hrun as ([] & w1 & Hfirst & Hrun).
  rewrite Hauto in Hfirst. unfold bind in Hfirst.
  fold sw active inactive in Hfirst.
  rewrite (create_event_plain _ _ _ Ha) in Hfirst.
  rewrite (create_event_plain _ _ _ Hi) in Hfirst.
  injection Hfirst as <-.
  match type of Hrun with ?m ?w0 = _ =>
    assert (registers_only m) as Hm end.
  { apply registers_only_bind;
      [apply registers_only_for_each; intros x;
       apply registers_only_tag_events |].
    intros _. apply registers_only_bind; [| intros _];
      apply registers_only_for_each; intros x;
      apply registers_only_create_event. }
  match type of Hrun with ?m ?w0 = _ => specialize (Hm w0) end.
  rewrite Hrun in Hm. cbn [snd] in Hm.
  unfold posting in Hm. cbn [self with_handler] in Hm.
  rewrite configured_self_device in Hm. fold sw in Hm.
  split; apply (extends_In _ _ _ Hm); cbn; rewrite !in_app_iff; cbn; tauto.
Qed.

(** When [_initialize] completes, every name in the configured
    events_when_activated list has a handler of this switch for state 1,
    and every name in events_when_deactivated one for state 0: posting the
    name itself with [ms = 0] when it has no bar, and otherwise posting
    the text before its one bar with [ms] the parsed text after it. *)
Theorem initialize_registers_configured_events
    (w w' : World) (event_str : string) :
  _initialize w = (Ok tt, w') ->
  let cfg := config (device (self w)) in
  let registered_for (state : Z) :=
    exists event ms,
      In {| h_switch_name := name (device (self w)); h_state := state;
            h_callback := PostEvent event; h_ms := ms |}
         (switch_handlers (machine w'))
      /\ ((contains "|" event_str = false /\ event = event_str /\ ms = 0)
          \/ (exists ev_time,
                split "|" event_str = [event; ev_time]
                /\ string_to_ms ev_time = Ok ms)) in
  (In event_str (string_to_lowercase_list (cfg_events_when_activated cfg)) ->
   registered_for 1)
  /\ (In event_str
        (string_to_lowercase_list (cfg_events_when_deactivated cfg)) ->
      registered_for 0).
Proof.
  intros Hrun. cbn zeta.
  rewrite initialize_unfold in Hrun. unfold register_events in Hrun.
  apply bind_Ok in Hrun as ([] & w1 & Hauto & Hrun).
  apply bind_Ok in Hrun as ([] & w2 & Htags & Hrun).
  apply bind_Ok in Hrun as ([] & w3 & Hact & Hdeact).
  assert (self w2 = configured_self w) as Hself2.
  { assert (extends {| self := configured_self w; machine := machine w |} w1)
      as [Hs1 _].
    { match type of Hauto with ?m ?w0 = _ =>
        assert (registers_only m) as Hm end.
      { destruct (auto_create_switch_events (mpf (machine w))).
        - apply registers_only_bind; [| intros _];
            apply registers_only_create_event.
        - apply registers_only_ret. }
      match type of Hauto with ?m ?w0 = _ => specialize (Hm w0) end.
      now rewrite Hauto in Hm. }
    pose proof (registers_only_for_each (tags (device (self w)))
                  (tag_events (switch_tag_event (mpf (machine w))))
                  (registers_only_tag_events
                     (switch_tag_event (mpf (machine w)))) w1) as [Hs2 _].
    rewrite Htags in Hs2. cbn [snd] in Hs2. cbn [self] in Hs1. congruence. }
  assert (extends w3 w') as Hext3.
  { pose proof (registers_only_for_each
                  (string_to_lowercase_list
                     (cfg_events_when_deactivated (config (device (self w)))))
                  (fun event => _create_activation_event event 0)
                  (fun x => registers_only_create_event x 0) w3) as H.
    now rewrite Hdeact in H. }
  assert (self w3 = configured_self w) as Hself3.
  { pose proof (registers_only_for_each
                  (string_to_lowercase_list
                     (cfg_events_when_activated (config (device (self w)))))
                  (fun event => _create_activation_event event 1)
                  (fun x => registers_only_create_event x 1) w2) as [H _].
    rewrite Hact in H. cbn [snd] in H. congruence. }
  split; intros Hin.
  - destruct (for_each_create_event _ _ _ _ _ Hact Hin)
      as (w0 & w1' & Hs0 & Hev & Hext).
    apply create_event_Ok_inv in Hev as (event & ms & -> & Hform).
    exists event, ms. split; [| exact Hform].
    apply (extends_In _ _ _ Hext3), (extends_In _ _ _ Hext).
    unfold posting. rewrite Hs0, Hself2, configured_self_device.
    cbn. rewrite in_app_iff. cbn. tauto.
  - destruct (for_each_create_event _ _ _ _ _ Hdeact Hin)
      as (w0 & w1' & Hs0 & Hev & Hext).
    apply create_event_Ok_inv in Hev as (event & ms & -> & Hform).
    exists event, ms. split; [| exact Hform].
    apply (extends_In _ _ _ Hext).
    unfold posting. rewrite Hs0, Hself3, configured_self_device.
    cbn. rewrite in_app_iff. cbn. tauto.
Qed.

End WithFramework.

Lemma create_activation_event_bad_delay_witness :
  _create_activation_event "ball_start|soon" 1 (example_world "NO" [])
  = (Raise ValueError, example_world "NO" []).
Proof.
  exact (create_activation_event_bad_delay (F := reference_framework)
           "ball_start" "soon" ValueError 1 (example_world "NO" [])
           eq_refl eq_refl eq_refl).
Defined.

Lemma initialize_handler_count_witness :
  let w := example_world "NO" ["start"; "playfield"] in
  length (switch_handlers (machine (snd (_initialize w))))
  = (length (switch_handlers (machine w)) + handlers_to_register w)%nat.
Proof.
  intros w.
  refine (initialize_handler_count (F := reference_framework)
            w (snd (_initialize w)) _).
  vm_compute. reflexivity.
Defined.

Lemma check_failure_is_final_witness :
  _check_duplicate_switch_numbers
    (example_machine_with
       [example_switch "fast" "5"; example_switch "fast" "5";
        example_switch "p_roc" "9"])
  = Raise AssertionError.
Proof.
  refine (check_failure_is_final (F := reference_framework)
            (example_machine_with
               [example_switch "fast" "5"; example_switch "fast" "5"])
            (example_machine_with
               [example_switch "fast" "5"; example_switch "fast" "5";
                example_switch "p_roc" "9"])
            [example_switch "p_roc" "9"] AssertionError eq_refl _).
  vm_compute. reflexivity.
Defined.

Lemma check_unbound_switch_witness :
  _check_duplicate_switch_numbers
    (example_machine_with
       [example_switch "fast" "5"; self (example_world "NO" []);
        example_switch "fast" "5"])
  = Raise AttributeError.
Proof.
  refine (check_unbound_switch (F := reference_framework)
            (example_machine_with [example_switch "fast" "5"])
            (example_machine_with
               [example_switch "fast" "5"; self (example_world "NO" []);
                example_switch "fast" "5"])
            (self (example_world "NO" []))
            [example_switch "fast" "5"] eq_refl _ eq_refl).
  vm_compute. reflexivity.
Defined.

Lemma check_order_irrelevant_witness :
  _check_duplicate_switch_numbers
    (example_machine_with
       [example_switch "fast" "5"; example_switch "p_roc" "5"])
  = _check_duplicate_switch_numbers
      (example_machine_with
         [example_switch "p_roc" "5"; example_switch "fast" "5"]).
Proof.
  refine (check_order_irrelevant (F := reference_framework) _ _ _ _).
  - repeat constructor; eexists; reflexivity.
  - apply perm_swap.
Defined.

Lemma check_after_initialize_witness :
  let m :=
    example_machine_with
      (map (fun w => self (snd (_initialize w)))
         [example_world "NO" []; example_world "NC" []]) in
  _check_duplicate_switch_numbers m = Ok tt
  \/ _check_duplicate_switch_numbers m = Raise AssertionError.
Proof.
  intros m.
  exact (check_after_initialize (F := reference_framework)
           [example_world "NO" []; example_world "NC" []] m eq_refl).
Defined.

Lemma initialize_invert_ignores_case_witness :
  invert (self (snd (_initialize (example_world "nc" [])))) = 1
  /\ invert (self (snd (_initialize (example_world "no" [])))) = 0.
Proof.
  split.
  - refine (proj1 (initialize_invert_ignores_case
                     (F := reference_framework)
                     (example_device "nc" []) example_machine _
                     (machine (example_world "nc" [])) _ eq_refl) _).
    right. left. reflexivity.
  - refine (proj2 (initialize_invert_ignores_case
                     (F := reference_framework)
                     (example_device "no" []) example_machine _
                     (machine (example_world "no" [])) _ eq_refl) _).
    intros [H | [H | [H | H]]]; discriminate H.
Defined.

Lemma initialize_registers_switch_events_witness :
  let w := example_world "NO" [] in
  let handlers := switch_handlers (machine (snd (_initialize w))) in
  In (mkSwitchHandler "s_start" 1 (PostEvent "s_start_active") 0) handlers
  /\ In (mkSwitchHandler "s_start" 0 (PostEvent "s_start_inactive") 0)
        handlers.
Proof.
  intros w handlers.
  refine (initialize_registers_switch_events (F := reference_framework)
            w (snd (_initialize w)) _ eq_refl eq_refl eq_refl).
  vm_compute. reflexivity.
Defined.

Lemma initialize_registers_configured_events_witness :
  let w := example_world_with_events "Ball_Start|250,tilt" in
  exists event ms,
    In (mkSwitchHandler "s_start" 1 (PostEvent event) ms)
       (switch_handlers (machine (snd (_initialize w))))
    /\ ((contains "|" "ball_start|250" = false
         /\ event = "ball_start|250"%string /\ ms = 0)
        \/ (exists ev_time,
              split "|" "ball_start|250" = [event; ev_time]
              /\ decimal_ms ev_time = Ok ms)).
Proof.
  intros w.
  refine (proj1 (initialize_registers_configured_events
                   (F := reference_framework)
                   w (snd (_initialize w)) "ball_start|250" _) _).
  - vm_compute. reflexivity.
  - left. reflexivity.
Defined.

End SwitchExtra.

(** ** The light script player *)

Module LightScriptSpec.

Import LightScriptPlayer.

Section WithValues.

Context {V : Type}.
Variable super_play :
  list (gmap string V) -> M (list (ShowCall (V := V))) unit.

Lemma show_call_complete (s : gmap string V) :
  complete s -> exists c, show_call s = inr c /\ built_from s c.
Proof.
  intros H.
  assert (forall k, k ∈ required_keys -> is_Some (s !! k)) as Hk
    by (apply Forall_forall, H).
  destruct (Hk "script"%string) as [v0 E0]; [repeat constructor |].
  destruct (Hk "lights"%string) as [v1 E1]; [repeat constructor |].
  destruct (Hk "leds"%string) as [v2 E2]; [repeat constructor |].
  destruct (Hk "light_tags"%string) as [v3 E3]; [repeat constructor |].
  destruct (Hk "led_tags"%string) as [v4 E4]; [repeat constructor |].
  destruct (Hk "key"%string) as [v5 E5]; [repeat constructor |].
  unfold show_call, subscript. rewrite E0, E1, E2, E3, E4, E5.
  eexists. split; [reflexivity |].
  unfold built_from. cbn. tauto.
Qed.

Lemma show_call_missing (s : gmap string V) (k : string) :
  first_missing s k -> show_call s = inl (KeyError k).
Proof.
  intros (before & after & Heq & Hnone & Hbefore).
  unfold required_keys in Heq. unfold show_call, subscript.
  repeat (destruct before as [| b before]; cbn [app] in Heq;
          [ injection Heq as <- _; rewrite Hnone; reflexivity
          | injection Heq as <- Heq;
            apply Forall_cons_iff in Hbefore as [Hb Hbefore];
            destruct Hb as [? Hv]; rewrite Hv; clear Hv ]).
  destruct before; discriminate.
Qed.

Lemma play_loop_complete (settings : list (gmap string V)) :
  Forall complete settings ->
  forall shows,
    exists calls,
      play_loop settings shows = (None, shows ++ calls)
      /\ Forall2 built_from settings calls.
Proof.
  induction 1 as [| s rest Hs _ IH]; intros shows; cbn [play_loop].
  - exists []. split; [now rewrite app_nil_r | constructor].
  - destruct (show_call_complete s Hs) as (c & -> & Hc).
    destruct (IH (shows ++ [c])) as (calls & -> & Hcalls).
    exists (c :: calls). split; [now rewrite <- app_assoc |].
    now constructor.
Qed.

(** When [super().play] returns and every settings entry has the six keys
    script, lights, leds, light_tags, led_tags and key, [play] returns
    after asking the show controller for exactly one show per entry, in
    the order of the entries, each with that entry's six values. *)
Theorem play_creates_a_show_per_entry
    (settings : list (gmap string V)) (shows shows' : list ShowCall) :
  super_play settings shows = (Ok tt, shows') ->
  Forall complete settings ->
  exists calls,
    play super_play settings shows = (None, shows' ++ calls)
    /\ Forall2 built_from settings calls.
Proof.
  intros Hsuper Hall. unfold play. rewrite Hsuper.
  now apply play_loop_complete.
Qed.

(** At the first entry that lacks one of the six keys [play] raises
    [KeyError] for the first key missing in the order script, lights,
    leds, light_tags, led_tags, key: the shows of the entries before it
    have been created and stay, none is created for it or for any entry
    after it. *)
Theorem play_stops_at_first_missing_key
    (before : list (gmap string V)) (s : gmap string V)
    (after : list (gmap string V)) (k : string)
    (shows shows' : list ShowCall) :
  super_play (before ++ s :: after) shows = (Ok tt, shows') ->
  Forall complete before ->
  first_missing s k ->
  exists calls,
    play super_play (before ++ s :: after) shows
    = (Some (KeyError k), shows' ++ calls)
    /\ Forall2 built_from before calls.
Proof.
  intros Hsuper Hall Hmiss. unfold play. rewrite Hsuper. clear Hsuper.
  revert shows'. induction Hall as [| e rest He _ IH]; intros shows';
    cbn [play_loop app].
  - rewrite (show_call_missing _ _ Hmiss).
    exists []. split; [now rewrite app_nil_r | constructor].
  - destruct (show_call_complete e He) as (c & -> & Hc).
    destruct (IH (shows' ++ [c])) as (calls & -> & Hcalls).
    exists (c :: calls). split; [now rewrite <- app_assoc |].
    now constructor.
Qed.

End WithValues.

Lemma example_entry_complete name : complete (example_entry name).
Proof.
  unfold complete, required_keys. repeat constructor; eexists;
    vm_compute; reflexivity.
Qed.

Lemma play_creates_a_show_per_entry_witness :
  exists calls,
    play (fun _ => ret tt) [example_entry "flash"; example_entry "sweep"] []
    = (None, [] ++ calls)
    /\ Forall2 built_from [example_entry "flash"; example_entry "sweep"]
         calls.
Proof.
  refine (play_creates_a_show_per_entry (fun _ => ret tt)
            [example_entry "flash"; example_entry "sweep"] [] [] eq_refl _).
  apply Forall_cons_iff. split; [apply example_entry_complete |].
  apply Forall_cons_iff. split; [apply example_entry_complete |].
  apply Forall_nil_iff. exact I.
Defined.

Lemma play_stops_at_first_missing_key_witness :
  exists calls,
    play (fun _ => ret tt)
      ([example_entry "flash"]
       ++ example_entry_without_leds "sweep" :: [example_entry "chase"]) []
    = (Some (KeyError "leds"), [] ++ calls)
    /\ Forall2 built_from [example_entry "flash"] calls.
Proof.
  refine (play_stops_at_first_missing_key (fun _ => ret tt)
            [example_entry "flash"] (example_entry_without_leds "sweep")
            [example_entry "chase"] "leds" [] [] eq_refl _ _).
  - apply Forall_cons_iff. split; [apply example_entry_complete |].
    apply Forall_nil_iff. exact I.
  - exists ["script"; "lights"]%string, ["light_tags"; "led_tags"; "key"]%string.
    split; [reflexivity |]. split; [vm_compute; reflexivity |].
    repeat constructor; eexists; vm_compute; reflexivity.
Defined.

End LightScriptSpec.
